(** * The worker agent of clint-pc-rebpbs: hot-swappable logic and task dispatch

    A shallow embedding of [src/worker.js].  The script is a long-lived
    Node process: it keeps a file [logic.js] in sync with a coordinator,
    loads it as a module into the global variable [logic], and runs the
    tasks the coordinator sends against that module.

    The embedding follows the script section by section:
    - JavaScript values and the few coercions the script relies on;
    - MD5, the digest of [getLocalHash];
    - the resumable computations that model (async) event handlers;
    - the file system, [loadLogic], [getLocalHash];
    - the socket handlers and the event loop;
    - the properties of the specification. *)

From Stdlib Require Import ZArith List String Ascii Bool Lia DecimalString.
From Stdlib Require Import Strings.Byte.
From ExtLib Require Import Structures.Monad Structures.MonadExc.
Import ListNotations.
Import MonadNotation.

Local Open Scope string_scope.
Local Open Scope Z_scope.
Local Open Scope monad_scope.

(** ** JavaScript values *)

Module Js.

(** The values that flow through the script.  A string is a sequence of
    code units below 256, character for character; a number is an
    integer-valued number: [VNum n] is the double nearest to [n].
    [VErr] is an instance of [Error] (or of a subclass, [name]); [VFun]
    is a function of a loaded module, known by an identity, the number
    of its parameters and its source text; [VSendProgress] is the
    closure [sendProgress] of [execute_task], which captures
    [requestId].  [VObj] is a plain object: own data properties in
    order, default prototype. *)
#[warnings="-register-all"] Inductive value : Type :=
| VUndef
| VNull
| VBool (b : bool)
| VNum (n : Z)
| VStr (s : string)
| VArr (xs : list value)
| VObj (fields : list (string * value))
| VErr (name message : string)
| VFun (id arity : nat) (src : string)
| VSendProgress (requestId : value).

Definition is_nullish (v : value) : bool :=
  match v with
  | VUndef | VNull => true
  | _ => false
  end.

(** ToBoolean. *)
Definition truthy (v : value) : bool :=
  match v with
  | VUndef | VNull => false
  | VBool b => b
  | VNum n => negb (n =? 0)
  | VStr s => negb (s =? "")%string
  | _ => true
  end.

Definition is_callable (v : value) : bool :=
  match v with
  | VFun _ _ _ | VSendProgress _ => true
  | _ => false
  end.

(** [a || b]. *)
Definition or_else (a b : value) : value := if truthy a then a else b.

Fixpoint lookup (k : string) (fields : list (string * value)) : value :=
  match fields with
  | [] => VUndef
  | (k', v) :: rest => if (k =? k')%string then v else lookup k rest
  end.

(** [k] is an own property. *)
Fixpoint has_own (k : string) (fields : list (string * value)) : bool :=
  match fields with
  | [] => false
  | (k', _) :: rest => (k =? k')%string || has_own k rest
  end.

Definition type_error (message : string) : value := VErr "TypeError" message.

(** The text V8 gives the [TypeError] of a property read on [undefined]
    or [null]. *)
Definition cannot_read (v : value) (k : string) : value :=
  type_error ("Cannot read properties of "
              ++ (match v with VNull => "null" | _ => "undefined" end)
              ++ " (reading '" ++ k ++ "')").

(** and of a call of something that is not a function; [what] is the
    source text of the callee. *)
Definition not_a_function (what : string) : value :=
  type_error (what ++ " is not a function").

(** and of the conversion of an object that has no primitive value. *)
Definition cannot_convert : value :=
  type_error "Cannot convert object to primitive value".

(** [v.k] for the property names the script uses: own properties of
    plain objects, [length] of arrays, strings and functions, [message]
    and [name] of errors; [inr] is the exception of a read on
    [undefined] or [null]. *)
Definition get (v : value) (k : string) : value + value :=
  match v with
  | VUndef | VNull => inr (cannot_read v k)
  | VObj fields => inl (lookup k fields)
  | VArr xs => inl (if (k =? "length")%string then VNum (Z.of_nat (List.length xs)) else VUndef)
  | VStr s => inl (if (k =? "length")%string then VNum (Z.of_nat (String.length s)) else VUndef)
  | VErr name message =>
      inl (if (k =? "message")%string then VStr message
           else if (k =? "name")%string then VStr name
           else VUndef)
  | VFun _ arity _ => inl (if (k =? "length")%string then VNum (Z.of_nat arity) else VUndef)
  | VSendProgress _ => inl (if (k =? "length")%string then VNum 1 else VUndef)
  | VBool _ | VNum _ => inl VUndef
  end.

(** The source text of the arrow function [sendProgress], on one line;
    the hourglass glyph of its template literal, a code unit above 255,
    is left out. *)
Definition sendProgress_text : string :=
  "(progressData) => { process.stdout.write(`\r Meter: ${progressData.current}/${progressData.total} | Status: ${progressData.status}   `); socket.emit('task_progress', { requestId, progress: progressData }); }".

Definition string_of_Z (n : Z) : string := NilZero.string_of_int (Z.to_int n).

(** *** Numbers as text

    [Number::toString] on an integer [x > 0].  The number is the double
    nearest to [x] (ties to the even mantissa; from [2^1024 - 2^970] on
    it is [Infinity]). *)
Definition round_double (n : Z) : Z :=
  let bits := Z.log2 n + 1 in
  if bits <=? 53 then n
  else
    let e := bits - 53 in
    let q := Z.shiftr n e in
    let r := n - Z.shiftl q e in
    let half := Z.shiftl 1 (e - 1) in
    Z.shiftl (if (half <? r) || ((r =? half) && Z.odd q) then q + 1 else q) e.

Definition decimal_length (n : Z) : Z := Z.of_nat (String.length (string_of_Z n)).

(** The pairs [(s, n)] with [s] of [k] digits such that [s * 10^(n-k)]
    is a decimal the double [d] is the nearest double of: [s] is then
    one of the two multiples of [10^(n-k)] around [d]. *)
Definition candidates (d k : Z) : list (Z * Z) :=
  flat_map
    (fun n =>
       let p := n - k in
       if p <? 0 then []
       else
         filter (fun c => (10 ^ (k - 1) <=? fst c) && (fst c <? 10 ^ k)
                          && (round_double (fst c * 10 ^ p) =? d))
                [(d / 10 ^ p, n); (d / 10 ^ p + 1, n)])
    [decimal_length d; decimal_length d + 1].

(** Of two candidates the one closest to [d]; the even one when they
    are as close. *)
Definition closer (d k : Z) (a b : Z * Z) : Z * Z :=
  let da := Z.abs (fst a * 10 ^ (snd a - k) - d) in
  let db := Z.abs (fst b * 10 ^ (snd b - k) - d) in
  if da <? db then a
  else if db <? da then b
  else if Z.even (fst a) then a else b.

(** The digits [s], their number [k], as small as possible, and the
    position [n] of the decimal point. *)
Fixpoint shortest (d : Z) (ks : list Z) : Z * Z * Z :=
  match ks with
  | [] => (d, decimal_length d, decimal_length d)
  | k :: rest =>
      match candidates d k with
      | [] => shortest d rest
      | c :: cs => let best := fold_left (closer d k) cs c in (fst best, k, snd best)
      end
  end.

Definition zeros (n : Z) : string := string_of_list_ascii (repeat "0"%char (Z.to_nat n)).

(** Up to 21 digits the number is printed in full, the digits after the
    shortest ones being zeros; beyond, in exponent form. *)
Definition positive_text (x : Z) : string :=
  let d := round_double x in
  if 2 ^ 1024 <=? d then "Infinity"
  else
    let '(s, k, n) := shortest d (map Z.of_nat (seq 1 17)) in
    let digits := string_of_Z s in
    if n <=? 21 then digits ++ zeros (n - k)
    else
      substring 0 1 digits
      ++ (if k =? 1 then "" else "." ++ substring 1 (Z.to_nat (k - 1)) digits)
      ++ "e+" ++ string_of_Z (n - 1).

Definition number_text (x : Z) : string :=
  if x =? 0 then "0"
  else if x <? 0 then "-" ++ positive_text (- x)
  else positive_text x.

(** *** Conversion to a string *)

Definition is_primitive (v : value) : bool :=
  match v with
  | VUndef | VNull | VBool _ | VNum _ | VStr _ => true
  | _ => false
  end.

(** ToString of a primitive value.  An object is first converted to a
    primitive ([to_text] below); on an object this function is not used
    and gives the empty string. *)
Definition to_string (v : value) : string :=
  match v with
  | VUndef => "undefined"
  | VNull => "null"
  | VBool true => "true"
  | VBool false => "false"
  | VNum n => number_text n
  | VStr s => s
  | _ => ""
  end.

(** The body of a function of a module is not part of the script.  What
    such a function returns ([inl]) or throws ([inr]) when a conversion
    of the language calls it on [this] without arguments, as the method
    [toString] or [valueOf] of an object, is given by the
    environment. *)
Class Methods : Type := call_method : value -> value -> value + value.

(** The preferred type of ToPrimitive: [HintString] in a template
    literal, [HintDefault] for an operand of [+]. *)
Inductive hint : Type := HintString | HintDefault.

Section Conversion.

Context {methods : Methods}.

(** One step of OrdinaryToPrimitive on the plain object with the own
    properties [fields]: the method [name] is read and, if callable,
    called.  [None]: the step gives no primitive and the next method is
    tried.  An own property hides the method of [Object.prototype],
    whose [toString] gives ["[object Object]"] and whose [valueOf]
    gives the object itself.  The closure [sendProgress], called without
    argument, throws at [progressData.current]. *)
Definition try_method (fields : list (string * value)) (name : string)
  : option (value + value) :=
  if has_own name fields then
    match lookup name fields with
    | VFun id arity src =>
        match call_method (VFun id arity src) (VObj fields) with
        | inl v => if is_primitive v then Some (inl v) else None
        | inr e => Some (inr e)
        end
    | VSendProgress _ => Some (inr (cannot_read VUndef "current"))
    | _ => None
    end
  else if (name =? "toString")%string then Some (inl (VStr "[object Object]"))
  else None.

(** OrdinaryToPrimitive: [toString] then [valueOf] for the hint
    string, [valueOf] then [toString] otherwise; a [TypeError] when
    neither gives a primitive. *)
Definition ordinary_to_primitive (h : hint) (fields : list (string * value))
  : value + value :=
  let '(first, second) :=
    match h with
    | HintString => ("toString", "valueOf")
    | HintDefault => ("valueOf", "toString")
    end in
  match try_method fields first with
  | Some r => r
  | None =>
      match try_method fields second with
      | Some r => r
      | None => inr cannot_convert
      end
  end.

(** [Array.prototype.join]: the elements are converted in order by
    [convert], [undefined] and [null] to the empty string, and
    separated by commas; the first conversion that throws ends the
    join. *)
Definition join_with (convert : value -> string + value)
  : list value -> string + value :=
  fix join (l : list value) : string + value :=
    match l with
    | [] => inl ""
    | x :: rest =>
        match (if is_nullish x then inl "" else convert x) with
        | inr e => inr e
        | inl a =>
            match rest with
            | [] => inl a
            | _ => match join rest with
                   | inl b => inl (a ++ "," ++ b)
                   | inr e => inr e
                   end
            end
        end
    end.

(** ToString(ToPrimitive(v, h)): the text of [v] in a template literal
    or in a concatenation with a string, or the exception the
    conversion throws.  An array is joined.  An error prints as
    [Error.prototype.toString] does, a function as its source text. *)
Fixpoint to_text (h : hint) (v : value) {struct v} : string + value :=
  match v with
  | VArr xs => join_with (to_text HintString) xs
  | VObj fields =>
      match ordinary_to_primitive h fields with
      | inl p => inl (to_string p)
      | inr e => inr e
      end
  | VErr name message =>
      inl (if (message =? "")%string then name
           else if (name =? "")%string then message
           else name ++ ": " ++ message)
  | VFun _ _ src => inl src
  | VSendProgress _ => inl sendProgress_text
  | VUndef | VNull | VBool _ | VNum _ | VStr _ => inl (to_string v)
  end.

End Conversion.

End Js.
Import Js.

(** ** MD5

    [crypto.createHash('md5')], [update(buffer)], [digest('hex')]: the
    MD5 message digest (RFC 1321) of a byte sequence, printed as 32
    lower-case hexadecimal digits.  Words are 32-bit integers in [Z];
    every sum is wrapped. *)

Module Md5.

Definition mask32 : Z := 0xffffffff.

Definition wrap32 (x : Z) : Z := Z.land x mask32.

Definition add32 (a b : Z) : Z := wrap32 (a + b).

Definition not32 (x : Z) : Z := Z.lxor x mask32.

Definition rotl32 (x c : Z) : Z :=
  Z.lor (wrap32 (Z.shiftl x c)) (Z.shiftr x (32 - c)).

(** [K i = floor (2^32 * abs (sin (i + 1)))]. *)
Definition K : list Z :=
  [ 0xd76aa478; 0xe8c7b756; 0x242070db; 0xc1bdceee;
    0xf57c0faf; 0x4787c62a; 0xa8304613; 0xfd469501;
    0x698098d8; 0x8b44f7af; 0xffff5bb1; 0x895cd7be;
    0x6b901122; 0xfd987193; 0xa679438e; 0x49b40821;
    0xf61e2562; 0xc040b340; 0x265e5a51; 0xe9b6c7aa;
    0xd62f105d; 0x02441453; 0xd8a1e681; 0xe7d3fbc8;
    0x21e1cde6; 0xc33707d6; 0xf4d50d87; 0x455a14ed;
    0xa9e3e905; 0xfcefa3f8; 0x676f02d9; 0x8d2a4c8a;
    0xfffa3942; 0x8771f681; 0x6d9d6122; 0xfde5380c;
    0xa4beea44; 0x4bdecfa9; 0xf6bb4b60; 0xbebfbc70;
    0x289b7ec6; 0xeaa127fa; 0xd4ef3085; 0x04881d05;
    0xd9d4d039; 0xe6db99e5; 0x1fa27cf8; 0xc4ac5665;
    0xf4292244; 0x432aff97; 0xab9423a7; 0xfc93a039;
    0x655b59c3; 0x8f0ccc92; 0xffeff47d; 0x85845dd1;
    0x6fa87e4f; 0xfe2ce6e0; 0xa3014314; 0x4e0811a1;
    0xf7537e82; 0xbd3af235; 0x2ad7d2bb; 0xeb86d391 ].

Definition shifts : list Z :=
  [ 7; 12; 17; 22; 7; 12; 17; 22; 7; 12; 17; 22; 7; 12; 17; 22;
    5; 9; 14; 20; 5; 9; 14; 20; 5; 9; 14; 20; 5; 9; 14; 20;
    4; 11; 16; 23; 4; 11; 16; 23; 4; 11; 16; 23; 4; 11; 16; 23;
    6; 10; 15; 21; 6; 10; 15; 21; 6; 10; 15; 21; 6; 10; 15; 21 ].

Definition mix (i : nat) (b c d : Z) : Z :=
  if (i <? 16)%nat then Z.lor (Z.land b c) (Z.land (not32 b) d)
  else if (i <? 32)%nat then Z.lor (Z.land d b) (Z.land (not32 d) c)
  else if (i <? 48)%nat then Z.lxor (Z.lxor b c) d
  else Z.lxor c (Z.lor b (not32 d)).

Definition word_index (i : nat) : nat :=
  if (i <? 16)%nat then i
  else if (i <? 32)%nat then (5 * i + 1) mod 16
  else if (i <? 48)%nat then (3 * i + 5) mod 16
  else (7 * i) mod 16.

Definition state : Type := Z * Z * Z * Z.

Definition round (M : list Z) (st : state) (i : nat) : state :=
  let '(a, b, c, d) := st in
  let f := add32 (add32 (add32 (mix i b c d) a) (nth i K 0))
                 (nth (word_index i) M 0) in
  (d, add32 b (rotl32 f (nth i shifts 0)), b, c).

Definition block (st : state) (M : list Z) : state :=
  let '(a0, b0, c0, d0) := st in
  let '(a, b, c, d) := fold_left (round M) (seq 0 64) st in
  (add32 a0 a, add32 b0 b, add32 c0 c, add32 d0 d).

(** [n] bytes of [x], least significant first. *)
Fixpoint le_bytes (n : nat) (x : Z) : list Z :=
  match n with
  | O => []
  | S n' => Z.land x 0xff :: le_bytes n' (Z.shiftr x 8)
  end.

Fixpoint le_word (bytes : list Z) : Z :=
  match bytes with
  | [] => 0
  | b :: rest => Z.lor b (Z.shiftl (le_word rest) 8)
  end.

Definition pad (msg : list Z) : list Z :=
  let len := Z.of_nat (List.length msg) in
  msg ++ [0x80] ++ repeat 0 (Z.to_nat ((55 - len) mod 64))
      ++ le_bytes 8 (Z.land (8 * len) 0xffffffffffffffff).

Fixpoint chunks (size count : nat) (l : list Z) : list (list Z) :=
  match count with
  | O => []
  | S count' => firstn size l :: chunks size count' (skipn size l)
  end.

Definition words_of_block (bytes : list Z) : list Z :=
  map le_word (chunks 4 16 bytes).

Definition init : state := (0x67452301, 0xefcdab89, 0x98badcfe, 0x10325476).

Definition digest (msg : list byte) : list Z :=
  let padded := pad (map (fun b => Z.of_N (Byte.to_N b)) msg) in
  let blocks := chunks 64 (List.length padded / 64) padded in
  let '(a, b, c, d) := fold_left block (map words_of_block blocks) init in
  le_bytes 4 a ++ le_bytes 4 b ++ le_bytes 4 c ++ le_bytes 4 d.

Definition hex_digit (n : Z) : ascii :=
  nth (Z.to_nat n)
      ["0"; "1"; "2"; "3"; "4"; "5"; "6"; "7"; "8"; "9";
       "a"; "b"; "c"; "d"; "e"; "f"]%char "0"%char.

Fixpoint hex_of_bytes (bytes : list Z) : string :=
  match bytes with
  | [] => ""
  | b :: rest =>
      String (hex_digit (Z.shiftr b 4))
             (String (hex_digit (Z.land b 0xf)) (hex_of_bytes rest))
  end.

Definition md5_hex (msg : list byte) : string := hex_of_bytes (digest msg).

End Md5.

(** ** The identity of the worker

    Lines 19 to 34 of the script: when [config.json] is missing, a
    machine identifier and a secret key are made from the host name and
    from random bytes.  The host name and the bytes [crypto.randomBytes]
    returns are the inputs. *)

Module Identity.

Definition in_range (lo hi : N) (c : ascii) : bool :=
  ((lo <=? N_of_ascii c) && (N_of_ascii c <=? hi))%N.

Definition is_digit (c : ascii) : bool := in_range 48 57 c.

Definition is_upper (c : ascii) : bool := in_range 65 90 c.

Definition is_lower (c : ascii) : bool := in_range 97 122 c.

(** The class [[a-zA-Z0-9]]. *)
Definition is_alnum (c : ascii) : bool := is_lower c || is_upper c || is_digit c.

Fixpoint map_string (f : ascii -> ascii) (s : string) : string :=
  match s with
  | EmptyString => EmptyString
  | String c rest => String (f c) (map_string f rest)
  end.

(** [os.hostname().replace(/[^a-zA-Z0-9]/g, '-')]. *)
Definition pcName (hostname : string) : string :=
  map_string (fun c => if is_alnum c then c else "-"%char) hostname.

(** [buffer.toString('hex')]. *)
Definition hex (bytes : list byte) : string :=
  Md5.hex_of_bytes (map (fun b => Z.of_N (Byte.to_N b)) bytes).

(** What [toUpperCase] does to a code unit below 128; the strings it is
    applied to hold no other code units. *)
Definition upper (c : ascii) : ascii :=
  if is_lower c then ascii_of_N (N_of_ascii c - 32) else c.

(** [`${pcName}-${randomId}`.toUpperCase()], with [randomId] the hex
    form of [crypto.randomBytes(2)]. *)
Definition newMachineId (hostname : string) (random : list byte) : string :=
  map_string upper (pcName hostname ++ "-" ++ hex random).

(** [crypto.randomBytes(16).toString('hex')]. *)
Definition newSecretKey (random : list byte) : string := hex random.

Definition newConfig (hostname : string) (random2 random16 : list byte) : value :=
  VObj [("machineId", VStr (newMachineId hostname random2));
        ("secretKey", VStr (newSecretKey random16))].

(** The characters of a machine identifier: capitals, digits, dash. *)
Definition is_id_char (c : ascii) : bool :=
  is_upper c || is_digit c || (c =? "-")%char.

(** The characters of a lower-case hexadecimal number. *)
Definition is_hex_char (c : ascii) : bool := is_digit c || in_range 97 102 c.

Fixpoint all_chars (p : ascii -> bool) (s : string) : bool :=
  match s with
  | EmptyString => true
  | String c rest => p c && all_chars p rest
  end.

End Identity.

(** ** The file [logic.js] and the state of the process *)

(** [LOGIC_PATH], relative to the directory of the script. *)
Definition LOGIC_PATH : string := "logic.js".

(** What the script can observe of the file system: the bytes of
    [logic.js] if the file exists, and whether opening it for reading
    and for writing succeeds. *)
Record filesys : Type := {
  logic_js : option (list byte);
  readable : bool;
  writable : bool
}.

Definition existsSync (fs : filesys) : bool :=
  match logic_js fs with Some _ => true | None => false end.

Definition fs_error (code what : string) : value :=
  VErr "Error" (code ++ ": " ++ what ++ ", open '" ++ LOGIC_PATH ++ "'").

Definition readFileSync (fs : filesys) : list byte + value :=
  match logic_js fs with
  | None => inr (fs_error "ENOENT" "no such file or directory")
  | Some bytes =>
      if readable fs then inl bytes
      else inr (fs_error "EACCES" "permission denied")
  end.

(** The UTF-8 encoding of a string of code units below 256. *)
Definition utf8_of_ascii (c : ascii) : list byte :=
  let n := N_of_ascii c in
  if (n <? 128)%N then [byte_of_ascii c]
  else [byte_of_ascii (ascii_of_N (192 + n / 64));
        byte_of_ascii (ascii_of_N (128 + n mod 64))].

Fixpoint utf8_encode (s : string) : list byte :=
  match s with
  | EmptyString => []
  | String c rest => utf8_of_ascii c ++ utf8_encode rest
  end.

Definition invalid_data_argument : value :=
  let q := String (ascii_of_nat 34) "" in
  VErr "TypeError"
       ("The " ++ q ++ "data" ++ q
        ++ " argument must be of type string or an instance of Buffer, TypedArray, or DataView.").

(** [fs.writeFileSync(LOGIC_PATH, data)]: the argument is checked, then
    the file is opened; a string is written in UTF-8 and replaces the
    content.  A write that fails leaves the file as it was.  Node also
    writes the bytes of a [Buffer], a [TypedArray] or a [DataView]:
    there is no such value among the values here, and what is not a
    string is rejected (as Node does from version 14 on; up to version
    17 an object with a [toString] method of its own is written as the
    text the method gives). *)
Definition writeFileSync (fs : filesys) (data : value) : filesys + value :=
  match data with
  | VStr s =>
      if writable fs then
        inl {| logic_js := Some (utf8_encode s);
               readable := readable fs; writable := writable fs |}
      else inr (fs_error "EACCES" "permission denied")
  | _ => inr invalid_data_argument
  end.

(** The lines the script prints, one constructor per [console.log],
    [console.error] or [process.stdout.write] of the handlers, with the
    values its template interpolates; the handlers convert these values
    to strings ([text]) before they print the line. *)
Inductive log_line : Type :=
| LogLogicLoaded
| LogLogicNotReadyYet
| LogConnected
| LogConnectionFailed (message : value)
| LogDownloading
| LogFileSaved
| LogReadyForTasks
| LogUpdateFailed (message : value)
| LogUpToDate
| LogWaitingForDownload
| LogProcessingTask (taskType id : value)
| LogProgress (current total status : value)
| LogLoggingIn
| LogLoginFailed
| LogLoginSuccess
| LogFound (count : value)
| LogError (message : value)
| LogTaskFinished
| LogLogicMissing
| LogPlaceholderCreated.

(** A message handed to [socket.emit]: the event name and its
    arguments. *)
Definition message : Type := string * list value.

(** The mutable state the handlers share: the file system, Node's
    module cache entry for [logic.js], the global variable [logic], the
    periods (in ms) of the intervals registered with [setInterval] (all
    of them emit [heartbeat]), what was emitted on the socket and what
    was printed. *)
Record store : Type := {
  disk : filesys;
  require_cache : option value;
  logic : value;
  intervals : list Z;
  outbox : list message;
  console : list log_line
}.

Definition set_disk (fs : filesys) (s : store) : store :=
  {| disk := fs; require_cache := require_cache s; logic := logic s;
     intervals := intervals s; outbox := outbox s; console := console s |}.

Definition set_require_cache (c : option value) (s : store) : store :=
  {| disk := disk s; require_cache := c; logic := logic s;
     intervals := intervals s; outbox := outbox s; console := console s |}.

Definition set_logic (m : value) (s : store) : store :=
  {| disk := disk s; require_cache := require_cache s; logic := m;
     intervals := intervals s; outbox := outbox s; console := console s |}.

Definition add_interval (ms : Z) (s : store) : store :=
  {| disk := disk s; require_cache := require_cache s; logic := logic s;
     intervals := intervals s ++ [ms]; outbox := outbox s;
     console := console s |}.

Definition add_outbox (ms : list message) (s : store) : store :=
  {| disk := disk s; require_cache := require_cache s; logic := logic s;
     intervals := intervals s; outbox := outbox s ++ ms;
     console := console s |}.

Definition add_console (l : log_line) (s : store) : store :=
  {| disk := disk s; require_cache := require_cache s; logic := logic s;
     intervals := intervals s; outbox := outbox s;
     console := console s ++ [l] |}.

(** ** Handlers as resumable computations

    A handler runs on the store until it returns, throws, or calls a
    function of the logic module.  The body of such a function is not
    part of the script: the call is handed to the environment, which
    later answers with the value the call (awaited) produced or with
    what it threw.  Until then the handler is suspended and other
    handlers run; the continuation receives the store as it is when the
    answer arrives. *)

Inductive outcome : Type :=
| Returned (v : value)
| Thrown (e : value).

Inductive res (A : Type) : Type :=
| Ret (a : A) (s : store)
| Exn (e : value) (s : store)
| Susp (callee : value) (args : list value) (s : store)
       (k : outcome -> store -> res A).

Arguments Ret {A} a s.
Arguments Exn {A} e s.
Arguments Susp {A} callee args s k.

Definition M (A : Type) : Type := store -> res A.

Fixpoint bind_res {A B : Type} (r : res A) (f : A -> M B) : res B :=
  match r with
  | Ret a s => f a s
  | Exn e s => Exn e s
  | Susp callee args s k =>
      Susp callee args s (fun o s' => bind_res (k o s') f)
  end.

(** [try { r } catch (e) { h e }]; an exception raised after a
    resumption is caught as well. *)
Fixpoint catch_res {A : Type} (r : res A) (h : value -> M A) : res A :=
  match r with
  | Ret a s => Ret a s
  | Exn e s => h e s
  | Susp callee args s k =>
      Susp callee args s (fun o s' => catch_res (k o s') h)
  end.

#[export] Instance Monad_M : Monad M := {
  ret := fun _ a s => Ret a s;
  bind := fun _ _ m f s => bind_res (m s) f
}.

#[export] Instance Exc_M : MonadExc value M := {
  raise := fun _ e s => Exn e s;
  catch := fun _ m h s => catch_res (m s) h
}.

Definition read_logic : M value := fun s => Ret (logic s) s.

(** The entry of [logic.js] in [require.cache]. *)
Definition read_cache : M (option value) := fun s => Ret (require_cache s) s.

Definition write_cache (c : option value) : M unit :=
  fun s => Ret tt (set_require_cache c s).

(** [fs.existsSync], [fs.readFileSync] and [fs.writeFileSync] on
    [LOGIC_PATH]. *)
Definition fs_exists : M bool := fun s => Ret (existsSync (disk s)) s.

Definition fs_read : M (list byte) :=
  fun s => match readFileSync (disk s) with
           | inl bytes => Ret bytes s
           | inr e => Exn e s
           end.

Definition fs_write (data : value) : M unit :=
  fun s => match writeFileSync (disk s) data with
           | inl fs => Ret tt (set_disk fs s)
           | inr e => Exn e s
           end.

Definition write_logic (m : value) : M unit := fun s => Ret tt (set_logic m s).

Definition emit (event : string) (args : list value) : M unit :=
  fun s => Ret tt (add_outbox [(event, args)] s).

Definition log (l : log_line) : M unit := fun s => Ret tt (add_console l s).

Definition setInterval (ms : Z) : M unit := fun s => Ret tt (add_interval ms s).

(** [v.k]. *)
Definition prop (v : value) (k : string) : M value :=
  match get v k with
  | inl x => ret x
  | inr e => raise e
  end.

(** The call [callee(args)], awaited: answered by the environment. *)
Definition invoke (callee : value) (args : list value) : M value :=
  fun s => Susp callee args s
                (fun o s' => match o with
                             | Returned v => Ret v s'
                             | Thrown e => Exn e s'
                             end).

(** A call expression whose callee and arguments are evaluated: a
    callee that is not a function is a [TypeError]. *)
Definition call (callee : value) (what : string) (args : list value) : M value :=
  if is_callable callee then invoke callee args
  else raise (not_a_function what).

(** ** The script *)

Section Worker.

(** What the methods [toString] and [valueOf] of the values give. *)
Context {methods : Methods}.

(** What evaluating the text of a module gives: Node's [require]
    compiles and runs the bytes of [logic.js] and yields [module.exports],
    or throws (a syntax error, an exception of the module's top level). *)
Variable evaluate : list byte -> outcome.

(** *** Module loading *)

(** [delete require.cache[require.resolve(LOGIC_PATH)]]. *)
Definition delete_require_cache : M unit :=
  found <- fs_exists ;;
  if found then write_cache None
  else raise (VErr "Error" ("Cannot find module '" ++ LOGIC_PATH ++ "'")).

(** [require(LOGIC_PATH)]. *)
Definition require_logic : M value :=
  cached <- read_cache ;;
  match cached with
  | Some m => ret m
  | None =>
      bytes <- fs_read ;;
      match evaluate bytes with
      | Returned m => write_cache (Some m) ;; ret m
      | Thrown e => raise e
      end
  end.

(** [logic && logic.processBatch], as a condition. *)
Definition logic_ready (m : value) : bool :=
  truthy m && match get m "processBatch" with
              | inl pb => truthy pb
              | inr _ => false
              end.

Definition loadLogic : M bool :=
  catch
    (found <- fs_exists ;;
     if found then
       delete_require_cache ;;
       m <- require_logic ;;
       write_logic m ;;
       lg <- read_logic ;;
       if logic_ready lg then log LogLogicLoaded ;; ret true
       else ret false
     else ret false)
    (fun _ => log LogLogicNotReadyYet ;; ret false).

Definition getLocalHash : M value :=
  catch
    (found <- fs_exists ;;
     if negb found then ret VNull
     else
       fileBuffer <- fs_read ;;
       ret (VStr (Md5.md5_hex fileBuffer)))
    (fun _ => ret VNull).

(** *** Start-up: the placeholder file and the first load

    The identity file [config.json] is read once and only feeds the
    connection's credentials; it is left out. *)
Definition startup : M unit :=
  found <- fs_exists ;;
  (if negb found then
     log LogLogicMissing ;;
     fs_write (VStr "// Waiting for server update...") ;;
     log LogPlaceholderCreated
   else ret tt) ;;
  _ <- loadLogic ;;
  ret tt.

Definition initial_store (fs : filesys) : store :=
  {| disk := fs; require_cache := None; logic := VUndef; intervals := [];
     outbox := []; console := [] |}.

(** *** Connection and version sync *)

Definition on_connect : M unit :=
  log LogConnected ;;
  h <- getLocalHash ;;
  emit "check_version" [h] ;;
  setInterval 10000.

(** The text of [v] in a template literal ([h] is [HintString]) or
    concatenated to a string ([HintDefault]); the conversion can
    throw. *)
Definition text (h : hint) (v : value) : M string :=
  match to_text h v with
  | inl t => ret t
  | inr e => raise e
  end.

Definition on_connect_error (err : value) : M unit :=
  m <- prop err "message" ;;
  text HintString m ;;
  log (LogConnectionFailed m).

Definition on_update_logic_file (data : value) : M unit :=
  log LogDownloading ;;
  catch
    (content <- prop data "content" ;;
     fs_write content ;;
     log LogFileSaved ;;
     _ <- loadLogic ;;
     log LogReadyForTasks)
    (fun e =>
       m <- prop e "message" ;;
       log (LogUpdateFailed m)).

Definition on_logic_uptodate : M unit := log LogUpToDate.

(** *** Task processing *)

Inductive task_kind : Type :=
| METER_POST | FAST_POST | LOGIN_CHECK | INVENTORY | SINGLE_CHECK | UnknownTask.

(** The [switch (taskType)]: strict equality with the five labels. *)
Definition classify (taskType : value) : task_kind :=
  match taskType with
  | VStr t =>
      if (t =? "METER_POST")%string then METER_POST
      else if (t =? "FAST_POST")%string then FAST_POST
      else if (t =? "LOGIN_CHECK")%string then LOGIN_CHECK
      else if (t =? "INVENTORY")%string then INVENTORY
      else if (t =? "SINGLE_CHECK")%string then SINGLE_CHECK
      else UnknownTask
  | _ => UnknownTask
  end.

(** [const { requestId, taskType, payload } = data]. *)
Definition destructure (data : value) : M (value * value * value) :=
  if is_nullish data then
    raise (type_error ("Cannot destructure property 'requestId' of 'data' as it is "
                       ++ to_string data ++ "."))
  else
    requestId <- prop data "requestId" ;;
    taskType <- prop data "taskType" ;;
    payload <- prop data "payload" ;;
    ret (requestId, taskType, payload).

(** [requestId.substring(0,6)]: the built-in of strings; on any other
    value an ordinary method call. *)
Definition substring_0_6 (requestId : value) : M value :=
  match requestId with
  | VStr s => ret (VStr (substring 0 6 s))
  | _ =>
      f <- prop requestId "substring" ;;
      call f "requestId.substring" [VNum 0; VNum 6]
  end.

(** [logic.verifyLoginDetails(payload.userid, payload.password)],
    awaited; [logic] is the global variable, read when the call is
    made. *)
Definition verifyLoginDetails (payload : value) : M value :=
  lg <- read_logic ;;
  f <- prop lg "verifyLoginDetails" ;;
  userid <- prop payload "userid" ;;
  password <- prop payload "password" ;;
  call f "logic.verifyLoginDetails" [userid; password].

(** The body of the [try]: the [switch] and what it assigns to
    [result]. *)
Definition run_task (requestId taskType payload : value) : M value :=
  match classify taskType with
  | METER_POST | FAST_POST =>
      lg <- read_logic ;;
      f <- prop lg "processBatch" ;;
      userid <- prop payload "userid" ;;
      password <- prop payload "password" ;;
      meters <- prop payload "meters" ;;
      call f "logic.processBatch" [userid; password; meters; VSendProgress requestId]
  | LOGIN_CHECK => verifyLoginDetails payload
  | INVENTORY =>
      log LogLoggingIn ;;
      authInv <- verifyLoginDetails payload ;;
      success <- prop authInv "success" ;;
      if negb (truthy success) then
        log LogLoginFailed ;;
        message <- prop authInv "message" ;;
        reason <- text HintDefault message ;;
        ret (VObj [("error", VStr ("Login Failed: " ++ reason))])
      else
        log LogLoginSuccess ;;
        lg <- read_logic ;;
        f <- prop lg "getInventoryList" ;;
        cookies <- prop authInv "cookies" ;;
        limit <- prop payload "limit" ;;
        data <- call f "logic.getInventoryList" [cookies; or_else limit (VNum 50)] ;;
        found <- prop data "length" ;;
        text HintString found ;;
        log (LogFound found) ;;
        count <- prop data "length" ;;
        ret (VObj [("status", VStr "success"); ("count", count); ("data", data)])
  | SINGLE_CHECK =>
      auth <- verifyLoginDetails payload ;;
      success <- prop auth "success" ;;
      if negb (truthy success) then
        ret (VObj [("error", VStr "Login Failed")])
      else
        lg <- read_logic ;;
        f <- prop lg "verifyMeter" ;;
        cookies <- prop auth "cookies" ;;
        meterNo <- prop payload "meterNo" ;;
        check <- call f "logic.verifyMeter" [cookies; meterNo] ;;
        found <- prop check "found" ;;
        if truthy found then
          data <- prop check "data" ;;
          ret (VObj [("status", VStr "found"); ("data", data)])
        else ret (VObj [("status", VStr "not_found")])
  | UnknownTask => ret (VObj [("error", VStr "Unknown Task Type")])
  end.

(** The [catch (e)] of the handler. *)
Definition task_failed (e : value) : M value :=
  m <- prop e "message" ;;
  text HintString m ;;
  log (LogError m) ;;
  m' <- prop e "message" ;;
  ret (VObj [("error", m'); ("failed", VNum 1)]).

Definition on_execute_task (data : value) : M unit :=
  lg <- read_logic ;;
  if negb (logic_ready lg) then
    log LogWaitingForDownload ;;
    h <- getLocalHash ;;
    emit "check_version" [h]
  else
    '(requestId, taskType, payload) <- destructure data ;;
    text HintString taskType ;;
    id <- substring_0_6 requestId ;;
    text HintString id ;;
    log (LogProcessingTask taskType id) ;;
    result <- catch (run_task requestId taskType payload) task_failed ;;
    log LogTaskFinished ;;
    emit "task_completed" [VObj [("requestId", requestId); ("result", result)]].

(** The closure [sendProgress] with [requestId] captured.  The
    template literal converts each property as soon as it is read. *)
Definition sendProgress (requestId progressData : value) : M unit :=
  current <- prop progressData "current" ;;
  text HintString current ;;
  total <- prop progressData "total" ;;
  text HintString total ;;
  status <- prop progressData "status" ;;
  text HintString status ;;
  log (LogProgress current total status) ;;
  emit "task_progress" [VObj [("requestId", requestId); ("progress", progressData)]].

(** *** The event loop

    The state of the process: the store; the handlers that are
    suspended at an [await], each under the ticket it got when it
    started; every call made to a function of the logic module, with
    the ticket of the handler that made it; and the exceptions that
    left a handler: Node reports them as uncaught exceptions or
    unhandled rejections, and by default they end the process. *)
Record system : Type := {
  st : store;
  pending : list (nat * (outcome -> store -> res unit));
  next_ticket : nat;
  invocations : list (nat * value * list value);
  unhandled : list value
}.

Definition boot (s : store) : system :=
  {| st := s; pending := []; next_ticket := 0%nat; invocations := [];
     unhandled := [] |}.

Fixpoint find_ticket {A : Type} (t : nat) (l : list (nat * A)) : option A :=
  match l with
  | [] => None
  | (t', a) :: rest => if (t =? t')%nat then Some a else find_ticket t rest
  end.

Definition drop_ticket {A : Type} (t : nat) (l : list (nat * A)) : list (nat * A) :=
  filter (fun p => negb (t =? fst p)%nat) l.

(** The handler with ticket [t], not suspended in [sys], ran up to
    [r]. *)
Definition absorb (t : nat) (r : res unit) (sys : system) : system :=
  match r with
  | Ret _ s =>
      {| st := s; pending := pending sys;
         next_ticket := next_ticket sys; invocations := invocations sys;
         unhandled := unhandled sys |}
  | Exn e s =>
      {| st := s; pending := pending sys;
         next_ticket := next_ticket sys; invocations := invocations sys;
         unhandled := unhandled sys ++ [e] |}
  | Susp callee args s k =>
      {| st := s; pending := pending sys ++ [(t, k)];
         next_ticket := next_ticket sys;
         invocations := invocations sys ++ [(t, callee, args)];
         unhandled := unhandled sys |}
  end.

(** A handler starts: it gets the next ticket. *)
Definition start (h : M unit) (sys : system) : system :=
  absorb (next_ticket sys) (h (st sys))
         {| st := st sys; pending := pending sys;
            next_ticket := S (next_ticket sys);
            invocations := invocations sys; unhandled := unhandled sys |}.

(** The call that the handler with ticket [t] awaits is answered. *)
Definition settle (t : nat) (o : outcome) (sys : system) : system :=
  match find_ticket t (pending sys) with
  | Some k =>
      absorb t (k o (st sys))
             {| st := st sys; pending := drop_ticket t (pending sys);
                next_ticket := next_ticket sys;
                invocations := invocations sys; unhandled := unhandled sys |}
  | None => sys
  end.

(** The heartbeats of the intervals during [elapsed] ms: an interval of
    period [p] fires [elapsed / p] times. *)
Definition fire_intervals (elapsed : Z) (periods : list Z) : list message :=
  flat_map (fun p => repeat ("heartbeat", []) (Z.to_nat (elapsed / p))) periods.

(** The code behind a function value of the script itself, run for the
    caller: what it threw goes back to the caller. *)
Definition callback (f arg : value) (sys : system) : system :=
  match f with
  | VSendProgress requestId =>
      match sendProgress requestId arg (st sys) with
      | Ret _ s | Exn _ s | Susp _ _ s _ =>
          {| st := s; pending := pending sys; next_ticket := next_ticket sys;
             invocations := invocations sys; unhandled := unhandled sys |}
      end
  | _ => sys
  end.

(** What happens to the process: the socket delivers an event, ten
    seconds pass, the awaited call of a suspended handler is answered,
    or the logic module calls a function it was given. *)
Inductive event : Type :=
| Connect
| ConnectError (err : value)
| UpdateLogicFile (data : value)
| LogicUptodate
| ExecuteTask (data : value)
| TenSeconds
| Settle (ticket : nat) (o : outcome)
| Callback (f arg : value).

Definition step (sys : system) (ev : event) : system :=
  match ev with
  | Connect => start on_connect sys
  | ConnectError err => start (on_connect_error err) sys
  | UpdateLogicFile data => start (on_update_logic_file data) sys
  | LogicUptodate => start on_logic_uptodate sys
  | ExecuteTask data => start (on_execute_task data) sys
  | TenSeconds =>
      {| st := add_outbox (fire_intervals 10000 (intervals (st sys))) (st sys);
         pending := pending sys; next_ticket := next_ticket sys;
         invocations := invocations sys; unhandled := unhandled sys |}
  | Settle t o => settle t o sys
  | Callback f arg => callback f arg sys
  end.

Definition run (sys : system) (evs : list event) : system :=
  fold_left step evs sys.

(** The process after start-up on a file system. *)
Definition launch (fs : filesys) : system :=
  start startup (boot (initial_store fs)).

End Worker.

(** *** Observations *)

(** The payloads of the messages emitted under an event name. *)
Definition emitted (event : string) (s : store) : list (list value) :=
  map snd (filter (fun m => (fst m =? event)%string) (outbox s)).

(** The [task_completed] messages tagged with [requestId]; identifiers
    are compared as strings. *)
Definition completions_of (requestId : string) (s : store) : list value :=
  filter (fun v => match get v "requestId" with
                   | inl (VStr r) => (r =? requestId)%string
                   | _ => false
                   end)
         (List.concat (emitted "task_completed" s)).

(** The value [getLocalHash] returns, as a function of the file
    system. *)
Definition hash_of_disk (fs : filesys) : value :=
  match logic_js fs with
  | Some bytes => if readable fs then VStr (Md5.md5_hex bytes) else VNull
  | None => VNull
  end.

(** The store after the end of [execute_task]: the last line printed
    and the [task_completed] message. *)
Definition completed (requestId result : value) (s : store) : store :=
  add_outbox
    [("task_completed", [VObj [("requestId", requestId); ("result", result)]])]
    (add_console LogTaskFinished s).

(** The result the [catch] of [execute_task] builds from a message. *)
Definition failure (message : value) : value :=
  VObj [("error", message); ("failed", VNum 1)].

(** [callee] is a property of the module [m]. *)
Definition member_of (m callee : value) : Prop :=
  exists name, get m name = inl callee.

(** Every call a handler makes, now or after any answers to its earlier
    calls, is a call of a property of the module the variable [logic]
    holds when the call is made: [m] now, [logic s'] when the handler
    resumes on the store [s']. *)
Fixpoint calls_current_module {A : Type} (r : res A) (m : value) : Prop :=
  match r with
  | Ret _ _ | Exn _ _ => True
  | Susp callee _ _ k =>
      member_of m callee
      /\ forall o s', calls_current_module (k o s') (logic s')
  end.

(** The handler makes no call. *)
Definition no_call {A : Type} (r : res A) : Prop :=
  match r with
  | Susp _ _ _ _ => False
  | _ => True
  end.

(** The handler makes at most one call. *)
Definition calls_at_most_once {A : Type} (r : res A) : Prop :=
  match r with
  | Susp _ _ _ k => forall o s', no_call (k o s')
  | _ => True
  end.

(** The [catch] block of [execute_task] can report [e]: [e.message]
    can be read and converted to a string. *)
Definition reportable {methods : Methods} (e : value) : Prop :=
  exists message line,
    get e "message" = inl message /\ to_text HintString message = inl line.

(** What a call can be answered with so that the [catch] block can
    report what it threw. *)
Definition has_message {methods : Methods} (o : outcome) : Prop :=
  match o with
  | Returned _ => True
  | Thrown e => reportable e
  end.

(** Whatever a method [toString] or [valueOf] throws can be
    reported. *)
Definition methods_throw_reportable {methods : Methods} : Prop :=
  forall f this e, call_method f this = inr e -> reportable e.

(** Started or resumed on [s0], the handler emits nothing until it
    ends, whatever its calls are answered with (among the answers
    [has_message] admits), and when it ends it has emitted exactly one
    message: [task_completed] tagged [requestId]; no exception leaves
    it. *)
Fixpoint completes_once {methods : Methods} (requestId : value) (r : res unit)
         (s0 : store) : Prop :=
  match r with
  | Ret _ s =>
      exists result,
        outbox s =
        (outbox s0
         ++ [("task_completed",
              [VObj [("requestId", requestId); ("result", result)]])])%list
  | Exn _ _ => False
  | Susp _ _ s k =>
      outbox s = outbox s0
      /\ forall o s', has_message o -> completes_once requestId (k o s') s'
  end.

(** Whenever a call of the handler is answered by an exception with a
    message that converts to a string, the handler ends with the result
    [failure message]; when the message does not convert, the exception
    of the conversion leaves the handler, which has emitted nothing
    since the answer. *)
Fixpoint catches {methods : Methods} (requestId : value) (r : res unit) : Prop :=
  match r with
  | Susp _ _ _ k =>
      (forall e message line s',
          get e "message" = inl message ->
          to_text HintString message = inl line ->
          k (Thrown e) s' =
          Ret tt (completed requestId (failure message)
                    (add_console (LogError message) s')))
      /\ (forall e message e' s',
             get e "message" = inl message ->
             to_text HintString message = inr e' ->
             k (Thrown e) s' = Exn e' s')
      /\ forall v s', catches requestId (k (Returned v) s')
  | _ => True
  end.

(** The handler, started or resumed on [s0], leaves the file, the
    module cache, the variable [logic] and the intervals as they are,
    until it ends and whatever its calls are answered with. *)
Fixpoint keeps_setup {A : Type} (r : res A) (s0 : store) : Prop :=
  match r with
  | Ret _ s | Exn _ s =>
      disk s = disk s0 /\ require_cache s = require_cache s0
      /\ logic s = logic s0 /\ intervals s = intervals s0
  | Susp _ _ s k =>
      (disk s = disk s0 /\ require_cache s = require_cache s0
       /\ logic s = logic s0 /\ intervals s = intervals s0)
      /\ forall o s', keeps_setup (k o s') s'
  end.

(** Every suspended handler of the process is of that kind. *)
Definition suspended_keep_setup (sys : system) : Prop :=
  forall t k, In (t, k) (pending sys) -> forall o s, keeps_setup (k o s) s.

(** The number of connection-established events among [evs]. *)
Fixpoint connects (evs : list event) : nat :=
  match evs with
  | [] => 0
  | Connect :: rest => S (connects rest)
  | _ :: rest => connects rest
  end.

(** No [update_logic_file] among [evs]. *)
Fixpoint no_update (evs : list event) : bool :=
  match evs with
  | [] => true
  | UpdateLogicFile _ :: _ => false
  | _ :: rest => no_update rest
  end.

Definition calls_of (t : nat) (sys : system) : list (value * list value) :=
  map (fun c => (snd (fst c), snd c))
      (filter (fun c => (fst (fst c) =? t)%nat) (invocations sys)).

(** ** Sample modules and runs *)

Module Sample.

(** A toy environment for the conversions: the method with identity 70
    answers with a text, every other one with [undefined]. *)
#[export] Instance sample_methods : Methods :=
  fun f this =>
    match f with
    | VFun id _ _ => if (id =? 70)%nat then inl (VStr "meter M-17") else inl VUndef
    | _ => inl VUndef
    end.

Definition fn (id : nat) (name : string) : value :=
  VFun id 0 ("async function " ++ name ++ "() { /* ... */ }").

(** A module with the four capabilities; [base] tells two versions
    apart. *)
Definition full_module (base : nat) : value :=
  VObj [("processBatch", fn base "processBatch");
        ("verifyLoginDetails", fn (base + 1) "verifyLoginDetails");
        ("getInventoryList", fn (base + 2) "getInventoryList");
        ("verifyMeter", fn (base + 3) "verifyMeter")].

Definition batch_only : value := VObj [("processBatch", fn 90 "processBatch")].

(** A module whose [processBatch] is not a function. *)
Definition odd_module : value := VObj [("processBatch", VNum 1)].

Definition login_only : value :=
  VObj [("processBatch", fn 80 "processBatch");
        ("verifyLoginDetails", fn 81 "verifyLoginDetails")].

(** A toy engine: the placeholder file exports an empty object, four
    texts stand for real modules, anything else is a syntax error. *)
Definition engine (bytes : list byte) : outcome :=
  let text := string_of_list_byte bytes in
  if (text =? "// Waiting for server update...")%string then Returned (VObj [])
  else if (text =? "v1")%string then Returned (full_module 10)
  else if (text =? "v2")%string then Returned (full_module 20)
  else if (text =? "batch")%string then Returned batch_only
  else if (text =? "login")%string then Returned login_only
  else Thrown (VErr "SyntaxError" "Unexpected token").

Definition disk_with (text : string) : filesys :=
  {| logic_js := Some (utf8_encode text); readable := true; writable := true |}.

Definition empty_disk : filesys :=
  {| logic_js := None; readable := true; writable := true |}.

(** A disk whose [logic.js] can be read but not written, and one whose
    [logic.js] cannot be read. *)
Definition read_only_disk (text : string) : filesys :=
  {| logic_js := Some (utf8_encode text); readable := true; writable := false |}.

Definition unreadable_disk (text : string) : filesys :=
  {| logic_js := Some (utf8_encode text); readable := false; writable := true |}.

Definition task (requestId taskType : string) (payload : value) : value :=
  VObj [("requestId", VStr requestId); ("taskType", VStr taskType);
        ("payload", payload)].

Definition credentials : value :=
  VObj [("userid", VStr "u1"); ("password", VStr "pw")].

Definition login_ok : value :=
  VObj [("success", VBool true); ("cookies", VStr "sid=1")].

Definition login_failed : value :=
  VObj [("success", VBool false); ("message", VStr "bad password")].

Definition update (text : string) : value := VObj [("content", VStr text)].

(** The process started on a disk that holds [text] as [logic.js]. *)
Definition running (text : string) : system := launch engine (disk_with text).

(** The process started on a disk without [logic.js]. *)
Definition fresh : system := launch engine empty_disk.

End Sample.

(** ** Properties *)

Section Properties.

Context {methods : Methods}.

Variable evaluate : list byte -> outcome.

(** *** Handlers that run to their end *)

Lemma start_ret (h : M unit) (sys : system) (s' : store) :
  h (st sys) = Ret tt s' ->
  start h sys =
  {| st := s'; pending := pending sys; next_ticket := S (next_ticket sys);
     invocations := invocations sys; unhandled := unhandled sys |}.
Proof. unfold start. intros ->. reflexivity. Qed.

Lemma start_exn (h : M unit) (sys : system) (e : value) (s' : store) :
  h (st sys) = Exn e s' ->
  start h sys =
  {| st := s'; pending := pending sys; next_ticket := S (next_ticket sys);
     invocations := invocations sys; unhandled := (unhandled sys ++ [e])%list |}.
Proof. unfold start. intros ->. reflexivity. Qed.

Lemma start_susp (h : M unit) (sys : system) (callee : value)
      (args : list value) (s' : store) (k : outcome -> store -> res unit) :
  h (st sys) = Susp callee args s' k ->
  start h sys =
  {| st := s'; pending := (pending sys ++ [(next_ticket sys, k)])%list;
     next_ticket := S (next_ticket sys);
     invocations := (invocations sys ++ [(next_ticket sys, callee, args)])%list;
     unhandled := unhandled sys |}.
Proof. unfold start. intros ->. reflexivity. Qed.

Lemma find_drop_ticket {A : Type} (t : nat) (l : list (nat * A)) :
  find_ticket t (drop_ticket t l) = None.
Proof.
  induction l as [|[t' a] l IH]; cbn; [reflexivity|].
  destruct (t =? t')%nat eqn:E; cbn; [exact IH|]. now rewrite E.
Qed.

(** An answer for a handler that is not suspended changes nothing. *)
Lemma settle_ignored (sys : system) (t : nat) (o : outcome) :
  find_ticket t (pending sys) = None -> settle t o sys = sys.
Proof. unfold settle. now intros ->. Qed.

(** When the answer lets the handler run to its end, the handler makes
    no further call and is no longer suspended: later answers under its
    ticket are ignored. *)
Lemma settle_finishes (sys : system) (t : nat) (o : outcome)
      (k : outcome -> store -> res unit) (s' : store) :
  find_ticket t (pending sys) = Some k ->
  k o (st sys) = Ret tt s' ->
  st (settle t o sys) = s'
  /\ invocations (settle t o sys) = invocations sys
  /\ unhandled (settle t o sys) = unhandled sys
  /\ find_ticket t (pending (settle t o sys)) = None.
Proof.
  intros Hk Hrun. unfold settle. rewrite Hk, Hrun. cbn.
  repeat split. apply find_drop_ticket.
Qed.

(** *** Loading and hashing *)

Lemma md5_hex_length (msg : list byte) : String.length (Md5.md5_hex msg) = 32%nat.
Proof.
  unfold Md5.md5_hex, Md5.digest.
  destruct (fold_left Md5.block _ Md5.init) as [[[a b] c] d]. reflexivity.
Qed.

(** Case analysis on what the handlers test of the file system. *)
Ltac store_cases s :=
  let bytes := fresh "bytes" in
  destruct s as [[[bytes|] [|] [|]] ? ? ? ? ?].

Lemma getLocalHash_returns (s : store) :
  getLocalHash s = Ret (hash_of_disk (disk s)) s.
Proof. store_cases s; reflexivity. Qed.

Lemma hash_of_disk_readable (fs : filesys) (bytes : list byte) :
  logic_js fs = Some bytes -> readable fs = true ->
  hash_of_disk fs = VStr (Md5.md5_hex bytes).
Proof. unfold hash_of_disk. intros -> ->. reflexivity. Qed.

Lemma hash_of_disk_null (fs : filesys) :
  logic_js fs = None \/ readable fs = false -> hash_of_disk fs = VNull.
Proof.
  unfold hash_of_disk. intros [-> | ->]; [reflexivity|].
  destruct (logic_js fs); reflexivity.
Qed.

Lemma on_connect_runs (s : store) :
  on_connect s =
  Ret tt (add_interval 10000
            (add_outbox [("check_version", [hash_of_disk (disk s)])]
               (add_console LogConnected s))).
Proof. store_cases s; reflexivity. Qed.

(** C5. On every connection-established event the agent emits exactly
    one message, [check_version], whose payload is what [getLocalHash]
    returns: the MD5 digest of the bytes of [logic.js] when the file is
    there and readable (so equal bytes on disk give equal payloads), and
    [null] when it is absent or unreadable. *)
Theorem connect_emits_check_version (sys : system) :
  let sys' := step evaluate sys Connect in
  outbox (st sys') =
    (outbox (st sys) ++ [("check_version", [hash_of_disk (disk (st sys))])])%list
  /\ getLocalHash (st sys) = Ret (hash_of_disk (disk (st sys))) (st sys)
  /\ (forall bytes,
        logic_js (disk (st sys)) = Some bytes ->
        readable (disk (st sys)) = true ->
        hash_of_disk (disk (st sys)) = VStr (Md5.md5_hex bytes))
  /\ (logic_js (disk (st sys)) = None \/ readable (disk (st sys)) = false ->
      hash_of_disk (disk (st sys)) = VNull)
  /\ (forall sys2 bytes,
        logic_js (disk (st sys)) = Some bytes ->
        logic_js (disk (st sys2)) = Some bytes ->
        readable (disk (st sys)) = true ->
        readable (disk (st sys2)) = true ->
        hash_of_disk (disk (st sys2)) = hash_of_disk (disk (st sys))).
Proof.
  cbn zeta. unfold step, start. rewrite on_connect_runs. cbn.
  repeat split.
  - apply getLocalHash_returns.
  - intros bytes Hf Hr. now apply hash_of_disk_readable.
  - apply hash_of_disk_null.
  - intros sys2 bytes H1 H2 R1 R2.
    rewrite (hash_of_disk_readable _ bytes H1 R1).
    now rewrite (hash_of_disk_readable _ bytes H2 R2).
Qed.

Lemma loadLogic_absent (s : store) :
  logic_js (disk s) = None -> loadLogic evaluate s = Ret false s.
Proof. store_cases s; cbn; intros H; try discriminate H; reflexivity. Qed.

Lemma loadLogic_unreadable (s : store) (bytes : list byte) :
  logic_js (disk s) = Some bytes -> readable (disk s) = false ->
  loadLogic evaluate s =
  Ret false (add_console LogLogicNotReadyYet (set_require_cache None s)).
Proof.
  store_cases s; cbn; intros H R; try discriminate H; try discriminate R;
    reflexivity.
Qed.

Lemma loadLogic_throws (s : store) (bytes : list byte) (e : value) :
  logic_js (disk s) = Some bytes -> readable (disk s) = true ->
  evaluate bytes = Thrown e ->
  loadLogic evaluate s =
  Ret false (add_console LogLogicNotReadyYet (set_require_cache None s)).
Proof.
  store_cases s; cbn; intros H R E; try discriminate H; try discriminate R;
    injection H as ->; unfold loadLogic; cbn; rewrite E; reflexivity.
Qed.

Lemma loadLogic_returns (s : store) (bytes : list byte) (m : value) :
  logic_js (disk s) = Some bytes -> readable (disk s) = true ->
  evaluate bytes = Returned m ->
  loadLogic evaluate s =
  if logic_ready m then
    Ret true (add_console LogLogicLoaded
                (set_logic m (set_require_cache (Some m) s)))
  else Ret false (set_logic m (set_require_cache (Some m) s)).
Proof.
  store_cases s; cbn; intros H R E; try discriminate H; try discriminate R;
    injection H as ->; destruct (logic_ready m) eqn:Hm;
    unfold loadLogic, logic_ready in *; cbn; rewrite E; cbn; rewrite Hm;
    reflexivity.
Qed.

(** [loadLogic] always returns: no exception leaves it. *)
Lemma loadLogic_total (s : store) :
  exists b s', loadLogic evaluate s = Ret b s'.
Proof.
  destruct (logic_js (disk s)) as [bytes|] eqn:Hf.
  - destruct (readable (disk s)) eqn:Hr.
    + destruct (evaluate bytes) as [m|e] eqn:He.
      * rewrite (loadLogic_returns s bytes m Hf Hr He).
        destruct (logic_ready m); eauto.
      * rewrite (loadLogic_throws s bytes e Hf Hr He). eauto.
    + rewrite (loadLogic_unreadable s bytes Hf Hr). eauto.
  - rewrite (loadLogic_absent s Hf). eauto.
Qed.

(** C4. When reading or evaluating [logic.js] fails (the file is
    absent, cannot be read, or its evaluation throws), [loadLogic]
    returns [false] without raising and the variable [logic] keeps the
    module it held; when the evaluation succeeds but the module has no
    usable [processBatch], [loadLogic] still returns [false] and the
    module it installed is not ready.  In every case [loadLogic]
    returns: no exception leaves it. *)
Theorem loadLogic_failure_keeps_module (s : store) :
  ((logic_js (disk s) = None
    \/ readable (disk s) = false
    \/ (exists bytes e, logic_js (disk s) = Some bytes /\ evaluate bytes = Thrown e)) ->
   exists s', loadLogic evaluate s = Ret false s'
              /\ logic s' = logic s /\ disk s' = disk s /\ outbox s' = outbox s)
  /\ (forall bytes m,
        logic_js (disk s) = Some bytes -> readable (disk s) = true ->
        evaluate bytes = Returned m ->
        logic_ready m = false ->
        exists s', loadLogic evaluate s = Ret false s'
                   /\ logic s' = m /\ logic_ready (logic s') = false)
  /\ (exists b s', loadLogic evaluate s = Ret b s').
Proof.
  split; [|split; [|apply loadLogic_total]].
  - intros H.
    destruct (logic_js (disk s)) as [bytes|] eqn:Hf.
    + destruct (readable (disk s)) eqn:Hr.
      * destruct H as [H | [H | (b & e & Hb & He)]]; try discriminate H.
        injection Hb as <-.
        rewrite (loadLogic_throws s bytes e Hf Hr He). eexists.
        repeat split; reflexivity.
      * rewrite (loadLogic_unreadable s bytes Hf Hr). eexists.
        repeat split; reflexivity.
    + rewrite (loadLogic_absent s Hf). eexists. repeat split; reflexivity.
  - intros bytes m Hf Hr He Hm.
    rewrite (loadLogic_returns s bytes m Hf Hr He), Hm. eexists.
    repeat split. exact Hm.
Qed.

(** *** Tasks that arrive while the module is not ready *)

Lemma not_ready_iff (m : value) :
  logic_ready m = false <->
  truthy m = false
  \/ exists pb, get m "processBatch" = inl pb /\ truthy pb = false.
Proof.
  unfold logic_ready. split.
  - destruct (truthy m) eqn:Hm; [|now left]. cbn.
    destruct (get m "processBatch") as [pb|e] eqn:Hg.
    + intros H. right. now exists pb.
    + destruct m; discriminate.
  - intros [-> | (pb & -> & ->)]; [reflexivity | apply andb_false_r].
Qed.

Lemma on_execute_task_not_ready (s : store) (data : value) :
  logic_ready (logic s) = false ->
  on_execute_task data s =
  Ret tt (add_outbox [("check_version", [hash_of_disk (disk s)])]
            (add_console LogWaitingForDownload s)).
Proof.
  intros H. unfold on_execute_task.
  store_cases s; cbn in H |- *; rewrite H; reflexivity.
Qed.

Lemma emitted_app (event : string) (s : store) (ms : list message) :
  emitted event (add_outbox ms s) =
  (emitted event s ++ map snd (filter (fun m => (fst m =? event)%string) ms))%list.
Proof. unfold emitted. cbn. now rewrite filter_app, map_app. Qed.

(** C2. An [execute_task] that arrives while the module is not ready
    (the guard [!logic || !logic.processBatch]) emits exactly one
    message, [check_version] with the current local hash, and nothing
    else: no [task_completed], no call of the module, no suspended
    handler; the task is dropped. *)
Theorem execute_task_not_ready (sys : system) (data : value) :
  logic_ready (logic (st sys)) = false ->
  let sys' := step evaluate sys (ExecuteTask data) in
  outbox (st sys') =
    (outbox (st sys) ++ [("check_version", [hash_of_disk (disk (st sys))])])%list
  /\ emitted "task_completed" (st sys') = emitted "task_completed" (st sys)
  /\ pending sys' = pending sys
  /\ invocations sys' = invocations sys
  /\ unhandled sys' = unhandled sys
  /\ logic (st sys') = logic (st sys)
  /\ disk (st sys') = disk (st sys).
Proof.
  intros H. cbn zeta. unfold step, start.
  rewrite (on_execute_task_not_ready _ data H). cbn.
  repeat split.
  unfold emitted. cbn. rewrite filter_app, map_app. cbn. apply app_nil_r.
Qed.

(** *** Updates of the logic file *)

Lemma loadLogic_frame (s : store) :
  exists b s', loadLogic evaluate s = Ret b s'
               /\ disk s' = disk s /\ outbox s' = outbox s
               /\ intervals s' = intervals s.
Proof.
  destruct (logic_js (disk s)) as [bytes|] eqn:Hf.
  - destruct (readable (disk s)) eqn:Hr.
    + destruct (evaluate bytes) as [m|e] eqn:He.
      * rewrite (loadLogic_returns s bytes m Hf Hr He).
        destruct (logic_ready m); do 2 eexists; repeat split.
      * rewrite (loadLogic_throws s bytes e Hf Hr He).
        do 2 eexists; repeat split.
    + rewrite (loadLogic_unreadable s bytes Hf Hr).
      do 2 eexists; repeat split.
  - rewrite (loadLogic_absent s Hf). do 2 eexists; repeat split.
Qed.

Lemma update_written (s : store) (data : value) (content : string) :
  get data "content" = inl (VStr content) ->
  writable (disk s) = true ->
  exists s', on_update_logic_file evaluate data s = Ret tt s'
             /\ disk s' = {| logic_js := Some (utf8_encode content);
                             readable := readable (disk s);
                             writable := true |}
             /\ outbox s' = outbox s
             /\ intervals s' = intervals s.
Proof.
  intros Hc Hw.
  unfold on_update_logic_file, prop, fs_write, writeFileSync.
  cbn -[loadLogic]. rewrite Hc. cbn -[loadLogic]. rewrite Hw.
  cbn -[loadLogic].
  match goal with
  | |- context [loadLogic evaluate ?s0] =>
      destruct (loadLogic_frame s0) as (b & s1 & -> & Hd & Ho & Hi)
  end.
  cbn. eexists. split; [reflexivity|]. cbn.
  rewrite Hd, Ho, Hi. repeat split.
Qed.

Lemma update_write_fails (s : store) (data : value) (content : string) :
  get data "content" = inl (VStr content) ->
  writable (disk s) = false ->
  on_update_logic_file evaluate data s =
  Ret tt (add_console
            (LogUpdateFailed
               (VStr ("EACCES: permission denied, open '" ++ LOGIC_PATH ++ "'")))
            (add_console LogDownloading s)).
Proof.
  intros Hc Hw.
  unfold on_update_logic_file, prop, fs_write, writeFileSync.
  cbn -[loadLogic]. rewrite Hc. cbn -[loadLogic]. rewrite Hw. reflexivity.
Qed.

(** On strings of code units below 128 the bytes written are the code
    units themselves. *)
Lemma utf8_encode_ascii (s : string) :
  Forall (fun c => (N_of_ascii c < 128)%N) (list_ascii_of_string s) ->
  utf8_encode s = list_byte_of_string s.
Proof.
  induction s as [|c s IH]; cbn; intros H; [reflexivity|].
  inversion H as [|? ? Hc Hs]; subst.
  unfold utf8_of_ascii. apply N.ltb_lt in Hc. rewrite Hc. cbn.
  now rewrite IH.
Qed.

(** C6. When [update_logic_file] delivers a text and the write
    succeeds, [logic.js] holds exactly the delivered text (in UTF-8),
    so the local hash computed from the file, and the [check_version]
    of the next connection, is the hash of the delivered content; when
    the write fails the failure is logged and the variable [logic], the
    module cache and the file are as before.  In both cases no
    exception leaves the handler. *)
Theorem update_logic_file_roundtrip (sys : system) (data : value) (content : string) :
  get data "content" = inl (VStr content) ->
  let sys' := step evaluate sys (UpdateLogicFile data) in
  (writable (disk (st sys)) = true ->
   logic_js (disk (st sys')) = Some (utf8_encode content)
   /\ (readable (disk (st sys)) = true ->
       hash_of_disk (disk (st sys')) = VStr (Md5.md5_hex (utf8_encode content))
       /\ outbox (st (step evaluate sys' Connect)) =
          (outbox (st sys')
           ++ [("check_version", [VStr (Md5.md5_hex (utf8_encode content))])])%list)
   /\ unhandled sys' = unhandled sys)
  /\ (writable (disk (st sys)) = false ->
      (exists msg,
          console (st sys') =
          (console (st sys) ++ [LogDownloading; LogUpdateFailed msg])%list)
      /\ logic (st sys') = logic (st sys)
      /\ require_cache (st sys') = require_cache (st sys)
      /\ disk (st sys') = disk (st sys)
      /\ unhandled sys' = unhandled sys).
Proof.
  intros Hc sys'.
  assert (E : sys' = start (on_update_logic_file evaluate data) sys)
    by reflexivity.
  clearbody sys'. subst sys'. split.
  - intros Hw.
    destruct (update_written (st sys) data content Hc Hw)
      as (s' & Hrun & Hd & Ho & Hi).
    rewrite (start_ret _ _ _ Hrun). cbn -[step]. rewrite Hd. cbn -[step].
    split; [reflexivity|]. split; [|reflexivity].
    intros Hr. rewrite Hr. split; [reflexivity|].
    unfold step. rewrite (start_ret _ _ _ (on_connect_runs _)). cbn.
    unfold hash_of_disk. rewrite Hd. cbn. rewrite Hr. reflexivity.
  - intros Hw.
    rewrite (start_ret _ _ _ (update_write_fails (st sys) data content Hc Hw)).
    cbn. repeat split. eexists. rewrite <- app_assoc. reflexivity.
Qed.

(** *** Task processing *)

Lemma get_inl_not_nullish (v x : value) (k : string) :
  get v k = inl x -> is_nullish v = false.
Proof. destruct v; cbn; intros H; try discriminate H; reflexivity. Qed.

Lemma get_not_nullish (v : value) (k : string) :
  is_nullish v = false -> exists x, get v k = inl x.
Proof. destruct v; cbn; intros H; try discriminate H; eauto. Qed.

(** Induction on values, through the elements of arrays. *)
Lemma value_nested_ind (P : value -> Prop) :
  P VUndef -> P VNull -> (forall b, P (VBool b)) -> (forall n, P (VNum n)) ->
  (forall t, P (VStr t)) ->
  (forall xs, Forall P xs -> P (VArr xs)) ->
  (forall fields, P (VObj fields)) ->
  (forall name message, P (VErr name message)) ->
  (forall id arity src, P (VFun id arity src)) ->
  (forall r, P (VSendProgress r)) ->
  forall v, P v.
Proof.
  intros HU HN HB HZ HS HA HO HE HF HP. fix IH 1.
  intros [| |b|n|t|xs|fields|name message|id arity src|r].
  - exact HU.
  - exact HN.
  - exact (HB b).
  - exact (HZ n).
  - exact (HS t).
  - apply HA. induction xs as [|x xs IHxs]; constructor; [apply IH | exact IHxs].
  - exact (HO fields).
  - exact (HE name message).
  - exact (HF id arity src).
  - exact (HP r).
Qed.

(** An instance of [Error] can be reported. *)
Lemma error_reportable (name message : string) : reportable (VErr name message).
Proof. exists (VStr message), message. split; reflexivity. Qed.

Lemma join_with_throws (convert : value -> string + value) (xs : list value)
      (e : value) :
  join_with convert xs = inr e -> exists x, In x xs /\ convert x = inr e.
Proof.
  induction xs as [|x xs IH]; cbn; [discriminate|].
  destruct (is_nullish x).
  - destruct xs as [|y ys]; [discriminate|].
    destruct (join_with convert (y :: ys)) as [b|e'] eqn:Hj; [discriminate|].
    intros H. injection H as <-.
    destruct (IH eq_refl) as (x' & Hin & Hx'). exists x'. split; [now right | exact Hx'].
  - destruct (convert x) as [a|e'] eqn:Hx.
    + destruct xs as [|y ys]; [discriminate|].
      destruct (join_with convert (y :: ys)) as [b|e''] eqn:Hj; [discriminate|].
      intros H. injection H as <-.
      destruct (IH eq_refl) as (x' & Hin & Hx'). exists x'. split; [now right | exact Hx'].
    + intros H. injection H as <-. exists x. split; [now left | exact Hx].
Qed.

Lemma try_method_throws (fields : list (string * value)) (name : string) (e : value) :
  methods_throw_reportable ->
  try_method fields name = Some (inr e) -> reportable e.
Proof.
  intros Hm. unfold try_method.
  destruct (has_own name fields).
  - destruct (lookup name fields) as [| |b|n|t|xs|fs|en em|id arity src|r];
      try discriminate.
    + destruct (call_method (VFun id arity src) (VObj fields)) as [v|e'] eqn:Hc.
      * destruct (is_primitive v); discriminate.
      * intros H. injection H as <-. exact (Hm _ _ _ Hc).
    + intros H. injection H as <-. apply error_reportable.
  - destruct (name =? "toString")%string; discriminate.
Qed.

(** When the methods throw what can be reported, so do the
    conversions. *)
Lemma to_text_throws (v : value) :
  methods_throw_reportable ->
  forall h e, to_text h v = inr e -> reportable e.
Proof.
  intros Hm.
  induction v as [| |b|n|t|xs IH|fields|name message|id arity src|r]
    using value_nested_ind; intros h e; cbn [to_text]; try discriminate.
  - intros H. destruct (join_with_throws _ _ _ H) as (x & Hin & Hx).
    rewrite Forall_forall in IH. exact (IH x Hin HintString e Hx).
  - unfold ordinary_to_primitive.
    destruct h; cbn zeta iota beta.
    + destruct (try_method fields "toString") as [[p|e1]|] eqn:H1.
      * discriminate.
      * intros H. injection H as <-. exact (try_method_throws _ _ _ Hm H1).
      * destruct (try_method fields "valueOf") as [[p|e2]|] eqn:H2.
        -- discriminate.
        -- intros H. injection H as <-. exact (try_method_throws _ _ _ Hm H2).
        -- intros H. injection H as <-. apply error_reportable.
    + destruct (try_method fields "valueOf") as [[p|e1]|] eqn:H1.
      * discriminate.
      * intros H. injection H as <-. exact (try_method_throws _ _ _ Hm H1).
      * destruct (try_method fields "toString") as [[p|e2]|] eqn:H2.
        -- discriminate.
        -- intros H. injection H as <-. exact (try_method_throws _ _ _ Hm H2).
        -- intros H. injection H as <-. apply error_reportable.
Qed.

(** Rewriting with what is known of the values, then computing. *)
Ltac run_handler :=
  repeat (cbn -[get logic_ready loadLogic to_string substring classify
                 is_callable truthy is_nullish or_else];
          try match goal with
              | H : get ?v ?k = _ |- context [get ?v ?k] => rewrite H
              | H : logic_ready ?m = _ |- context [logic_ready ?m] => rewrite H
              | H : is_callable ?f = _ |- context [is_callable ?f] => rewrite H
              | H : truthy ?v = _ |- context [truthy ?v] => rewrite H
              | H : is_nullish ?v = _ |- context [is_nullish ?v] => rewrite H
              | H : classify ?v = _ |- context [classify ?v] => rewrite H
              | H : to_text ?h ?v = _ |- context [to_text ?h ?v] => rewrite H
              | |- context [get cannot_convert _] =>
                  unfold cannot_convert, type_error
              | |- context [get (cannot_read _ _) _] =>
                  unfold cannot_read, type_error
              | |- context [get (not_a_function _) _] =>
                  unfold not_a_function, type_error
              | |- context [get (VErr ?n ?m) "message"] =>
                  change (get (VErr n m) "message") with (@inl value value (VStr m))
              end).

(** The handler up to the [try]: the module is ready and the task has
    a string for [requestId]. *)
Lemma on_execute_task_ready (s : store) (data : value) (rid : string)
      (taskType payload : value) (label : string) :
  logic_ready (logic s) = true ->
  get data "requestId" = inl (VStr rid) ->
  get data "taskType" = inl taskType ->
  get data "payload" = inl payload ->
  to_text HintString taskType = inl label ->
  on_execute_task data s =
  bind_res
    (catch_res
       (run_task (VStr rid) taskType payload
          (add_console (LogProcessingTask taskType (VStr (substring 0 6 rid))) s))
       task_failed)
    (fun result s' => Ret tt (completed (VStr rid) result s')).
Proof.
  intros Hready Hrid Htype Hpayload Hlabel.
  pose proof (get_inl_not_nullish _ _ _ Hrid) as Hdata.
  unfold on_execute_task, destructure, text, prop, substring_0_6.
  run_handler. reflexivity.
Qed.

(** A task whose [taskType] cannot be printed ends at the log line that
    precedes the [try]: the exception of the conversion leaves the
    handler. *)
Lemma on_execute_task_unprintable (s : store) (data : value) (rid : string)
      (taskType e : value) :
  logic_ready (logic s) = true ->
  get data "requestId" = inl (VStr rid) ->
  get data "taskType" = inl taskType ->
  to_text HintString taskType = inr e ->
  on_execute_task data s = Exn e s.
Proof.
  intros Hready Hrid Htype Hlabel.
  pose proof (get_inl_not_nullish _ _ _ Hrid) as Hdata.
  destruct (get_not_nullish data "payload" Hdata) as (payload & Hpayload).
  unfold on_execute_task, destructure, text, prop, substring_0_6.
  run_handler. reflexivity.
Qed.

(** C9. A [SINGLE_CHECK] task first calls [verifyLoginDetails] (with
    the credentials of the payload).  When the login result is not a
    success, the handler ends without any further call and the result
    is exactly [{error: "Login Failed"}]; when it is a success,
    [verifyMeter] is called with the login cookies and [meterNo], and
    the result is exactly [{status: "not_found"}] for [found: false]
    and [{status: "found", data}] for [found: true].  Each time exactly
    one [task_completed] with the task's [requestId] is emitted. *)
Theorem single_check_chain (s : store) (data : value) (rid : string)
        (payload userid password f : value) :
  logic_ready (logic s) = true ->
  get data "requestId" = inl (VStr rid) ->
  get data "taskType" = inl (VStr "SINGLE_CHECK") ->
  get data "payload" = inl payload ->
  get payload "userid" = inl userid ->
  get payload "password" = inl password ->
  get (logic s) "verifyLoginDetails" = inl f ->
  is_callable f = true ->
  exists k1,
    on_execute_task data s =
      Susp f [userid; password]
           (add_console (LogProcessingTask (VStr "SINGLE_CHECK")
                                           (VStr (substring 0 6 rid))) s) k1
    /\ (forall auth success s2,
          get auth "success" = inl success -> truthy success = false ->
          k1 (Returned auth) s2 =
          Ret tt (completed (VStr rid) (VObj [("error", VStr "Login Failed")]) s2))
    /\ (forall auth success cookies meterNo g s2,
          get auth "success" = inl success -> truthy success = true ->
          get auth "cookies" = inl cookies ->
          get payload "meterNo" = inl meterNo ->
          get (logic s2) "verifyMeter" = inl g -> is_callable g = true ->
          exists k2,
            k1 (Returned auth) s2 = Susp g [cookies; meterNo] s2 k2
            /\ (forall check s3,
                  get check "found" = inl (VBool false) ->
                  k2 (Returned check) s3 =
                  Ret tt (completed (VStr rid)
                            (VObj [("status", VStr "not_found")]) s3))
            /\ (forall check d s3,
                  get check "found" = inl (VBool true) ->
                  get check "data" = inl d ->
                  k2 (Returned check) s3 =
                  Ret tt (completed (VStr rid)
                            (VObj [("status", VStr "found"); ("data", d)]) s3))).
Proof.
  intros Hready Hrid Htype Hpayload Hu Hp Hf Hcall.
  rewrite (on_execute_task_ready s data rid _ payload _ Hready Hrid Htype Hpayload eq_refl).
  assert (Hkind : classify (VStr "SINGLE_CHECK") = SINGLE_CHECK) by reflexivity.
  unfold run_task, verifyLoginDetails, text, prop, call, invoke.
  run_handler. eexists. split; [reflexivity|]. split.
  - intros auth success s2 Hs Ht. run_handler. reflexivity.
  - intros auth success cookies meterNo g s2 Hs Ht Hc Hm Hg Hgc.
    run_handler. eexists. split; [reflexivity|]. split.
    + intros check s3 Hfound. run_handler. reflexivity.
    + intros check d s3 Hfound Hd. run_handler. reflexivity.
Qed.


Lemma get_inr_nullish (v e : value) (k : string) :
  get v k = inr e -> is_nullish v = true.
Proof. destruct v; cbn; intros H; try discriminate H; reflexivity. Qed.

Lemma get_inr_error (v e : value) (k : string) :
  get v k = inr e -> e = cannot_read v k.
Proof. destruct v; cbn; intros H; try discriminate H; now injection H. Qed.

Ltac absurd_read :=
  match goal with
  | H1 : get ?v _ = inr _, H2 : is_nullish ?v = false |- _ =>
      rewrite (get_inr_nullish _ _ _ H1) in H2; discriminate H2
  | H1 : get ?v _ = inr _, H2 : get ?v _ = inl _ |- _ =>
      rewrite (get_inr_nullish _ _ _ H1) in *;
      apply get_inl_not_nullish in H2; congruence
  end.

(** Case analysis on everything a handler tests. *)
Ltac case_handler :=
  repeat (run_handler;
          match goal with
          | |- True => exact I
          | _ => absurd_read
          | H : get ?v ?k = inr ?e |- _ =>
              is_var e; pose proof (get_inr_nullish _ _ _ H);
              apply get_inr_error in H; subst e
          | H : has_message (Thrown _) |- _ => progress cbn in H
          | H : reportable _ |- _ => destruct H as (? & ? & ? & ?)
          | Hm : methods_throw_reportable, H : to_text _ _ = inr ?e |- _ =>
              is_var e; pose proof (to_text_throws _ Hm _ _ H); clear H
          | |- exists _, _ => eexists; reflexivity
          | |- outbox _ = outbox _ => reflexivity
          | |- _ /\ _ => split
          | |- forall _, _ => intro
          | H : False |- _ => destruct H
          | |- member_of _ _ => eexists; eassumption
          | o : outcome |- _ => destruct o
          | |- context [match classify ?v with _ => _ end] =>
              destruct (classify v) eqn:?
          | |- context [if is_callable ?f then _ else _] =>
              destruct (is_callable f) eqn:?
          | |- context [truthy ?v] => destruct (truthy v) eqn:?
          | |- context [match get ?v ?k with _ => _ end] =>
              destruct (get v k) eqn:?
          | |- context [match to_text ?h ?v with _ => _ end] =>
              destruct (to_text h v) eqn:?
          end);
  run_handler.

(** Every call of a task is made on the module that [logic] holds at
    the time of the call. *)
Lemma execute_task_calls_current_module (s : store) (data : value) (rid : string) :
  get data "requestId" = inl (VStr rid) ->
  calls_current_module (on_execute_task data s) (logic s).
Proof.
  intros Hrid.
  destruct (logic_ready (logic s)) eqn:Hready.
  - pose proof (get_inl_not_nullish _ _ _ Hrid) as Hdata.
    destruct (get_not_nullish data "taskType" Hdata) as (taskType & Htype).
    destruct (get_not_nullish data "payload" Hdata) as (payload & Hpayload).
    destruct (to_text HintString taskType) as [label|e] eqn:Hlabel;
      [|rewrite (on_execute_task_unprintable s data rid _ _ Hready Hrid Htype Hlabel);
        exact I].
    rewrite (on_execute_task_ready s data rid _ payload _ Hready Hrid Htype Hpayload Hlabel).
    unfold run_task, verifyLoginDetails, task_failed, text, prop, call, invoke.
    case_handler.
  - rewrite (on_execute_task_not_ready s data Hready). exact I.
Qed.

(** X17. A task handled while the module is ready runs to exactly one
    [task_completed] with its [requestId], provided [requestId] is a
    string, [taskType] can be printed and everything that is thrown at
    the handler, by a call of the module or by a conversion to a
    string, can be reported by the [catch] block: it has a [message]
    that can be read and printed. *)
Lemma execute_task_completes_once (s : store) (data : value) (rid : string)
      (taskType : value) (label : string) :
  methods_throw_reportable ->
  logic_ready (logic s) = true ->
  get data "requestId" = inl (VStr rid) ->
  get data "taskType" = inl taskType ->
  to_text HintString taskType = inl label ->
  completes_once (VStr rid) (on_execute_task data s) s.
Proof.
  intros Hm Hready Hrid Htype Hlabel.
  pose proof (get_inl_not_nullish _ _ _ Hrid) as Hdata.
  destruct (get_not_nullish data "payload" Hdata) as (payload & Hpayload).
  rewrite (on_execute_task_ready s data rid _ payload _ Hready Hrid Htype Hpayload Hlabel).
  clear Hlabel.
  unfold run_task, verifyLoginDetails, task_failed, text, prop, call, invoke.
  case_handler.
Qed.

(** X18. and an exception whose [message] can be printed, thrown at
    any of its calls, is turned into the result
    [{error: message, failed: 1}], the message as it is; an exception
    whose [message] cannot be printed makes the [catch] block throw in
    turn, and no [task_completed] follows. *)
Lemma execute_task_catches (s : store) (data : value) (rid : string)
      (taskType : value) (label : string) :
  logic_ready (logic s) = true ->
  get data "requestId" = inl (VStr rid) ->
  get data "taskType" = inl taskType ->
  to_text HintString taskType = inl label ->
  catches (VStr rid) (on_execute_task data s).
Proof.
  intros Hready Hrid Htype Hlabel.
  pose proof (get_inl_not_nullish _ _ _ Hrid) as Hdata.
  destruct (get_not_nullish data "payload" Hdata) as (payload & Hpayload).
  rewrite (on_execute_task_ready s data rid _ payload _ Hready Hrid Htype Hpayload Hlabel).
  clear Hlabel.
  unfold run_task, verifyLoginDetails, task_failed, text, prop, call, invoke.
  case_handler; reflexivity.
Qed.

(** but what is thrown without a message, [null] or [undefined], leaves
    the handler: the [catch] block throws when it reads [e.message],
    and nothing is emitted. *)
Lemma nullish_rejection_escapes (s : store) (data : value) (rid : string)
      (payload userid password meters f : value) :
  logic_ready (logic s) = true ->
  get data "requestId" = inl (VStr rid) ->
  get data "taskType" = inl (VStr "METER_POST") ->
  get data "payload" = inl payload ->
  get payload "userid" = inl userid ->
  get payload "password" = inl password ->
  get payload "meters" = inl meters ->
  get (logic s) "processBatch" = inl f ->
  is_callable f = true ->
  exists s1 k,
    on_execute_task data s =
      Susp f [userid; password; meters; VSendProgress (VStr rid)] s1 k
    /\ forall e s2,
        is_nullish e = true ->
        k (Thrown e) s2 = Exn (cannot_read e "message") s2.
Proof.
  intros Hready Hrid Htype Hpayload Hu Hp Hm Hf Hcall.
  rewrite (on_execute_task_ready s data rid _ payload _ Hready Hrid Htype Hpayload eq_refl).
  assert (Hkind : classify (VStr "METER_POST") = METER_POST) by reflexivity.
  unfold run_task, task_failed, text, prop, call, invoke.
  run_handler. do 2 eexists. split; [reflexivity|].
  intros e s2 He. destruct e; try discriminate He; reflexivity.
Qed.

(** C10. The guard of [execute_task] looks at [processBatch] only: a
    module with a truthy [processBatch] is ready whatever else it
    lacks.  A [LOGIN_CHECK], [INVENTORY] or [SINGLE_CHECK] task sent to
    a module without a callable [verifyLoginDetails] is therefore run,
    not dropped: it ends at once with exactly one [task_completed]
    whose result is the caught [TypeError],
    [{error: "logic.verifyLoginDetails is not a function", failed: 1}],
    and no [check_version].  The same holds at the second step of the
    chains: an [INVENTORY] task whose login succeeded ends with
    [{error: "logic.getInventoryList is not a function", failed: 1}]
    when the module lacks [getInventoryList], and a [SINGLE_CHECK] task
    with [{error: "logic.verifyMeter is not a function", failed: 1}]
    when it lacks [verifyMeter]. *)
Theorem ready_probes_only_processBatch (s : store) (data : value)
        (rid t : string) (payload pb : value) :
  truthy (logic s) = true ->
  get (logic s) "processBatch" = inl pb -> truthy pb = true ->
  get data "requestId" = inl (VStr rid) ->
  get data "taskType" = inl (VStr t) ->
  get data "payload" = inl payload ->
  logic_ready (logic s) = true
  /\ (forall v,
        t = "LOGIN_CHECK" \/ t = "INVENTORY" \/ t = "SINGLE_CHECK" ->
        get (logic s) "verifyLoginDetails" = inl v -> is_callable v = false ->
        is_nullish payload = false ->
        exists s',
          on_execute_task data s =
          Ret tt (completed (VStr rid)
                    (failure (VStr "logic.verifyLoginDetails is not a function"))
                    s')
          /\ outbox s' = outbox s)
  /\ (forall f userid password,
        t = "INVENTORY" ->
        get (logic s) "verifyLoginDetails" = inl f -> is_callable f = true ->
        get payload "userid" = inl userid ->
        get payload "password" = inl password ->
        exists s1 k1,
          on_execute_task data s = Susp f [userid; password] s1 k1
          /\ outbox s1 = outbox s
          /\ forall auth success g s2,
              get auth "success" = inl success -> truthy success = true ->
              get (logic s2) "getInventoryList" = inl g ->
              is_callable g = false ->
              exists s3,
                k1 (Returned auth) s2 =
                Ret tt (completed (VStr rid)
                          (failure (VStr "logic.getInventoryList is not a function"))
                          s3)
                /\ outbox s3 = outbox s2)
  /\ (forall f userid password,
        t = "SINGLE_CHECK" ->
        get (logic s) "verifyLoginDetails" = inl f -> is_callable f = true ->
        get payload "userid" = inl userid ->
        get payload "password" = inl password ->
        exists s1 k1,
          on_execute_task data s = Susp f [userid; password] s1 k1
          /\ outbox s1 = outbox s
          /\ forall auth success g s2,
              get auth "success" = inl success -> truthy success = true ->
              get (logic s2) "verifyMeter" = inl g ->
              is_callable g = false ->
              exists s3,
                k1 (Returned auth) s2 =
                Ret tt (completed (VStr rid)
                          (failure (VStr "logic.verifyMeter is not a function"))
                          s3)
                /\ outbox s3 = outbox s2).
Proof.
  intros Hm Hpb Htpb Hrid Htype Hpayload.
  assert (Hready : logic_ready (logic s) = true).
  { unfold logic_ready. now rewrite Hm, Hpb. }
  split; [exact Hready|].
  rewrite (on_execute_task_ready s data rid _ payload _ Hready Hrid Htype Hpayload eq_refl).
  unfold run_task, verifyLoginDetails, task_failed, text, prop, call, invoke.
  split; [|split].
  - intros v Ht Hv Hcall Hnn.
    destruct (get_not_nullish payload "userid" Hnn) as (userid & Hu).
    destruct (get_not_nullish payload "password" Hnn) as (password & Hp).
    destruct Ht as [-> | [-> | ->]];
      [ assert (Hkind : classify (VStr "LOGIN_CHECK") = LOGIN_CHECK) by reflexivity
      | assert (Hkind : classify (VStr "INVENTORY") = INVENTORY) by reflexivity
      | assert (Hkind : classify (VStr "SINGLE_CHECK") = SINGLE_CHECK) by reflexivity ];
      run_handler; eexists; split; reflexivity.
  - intros f userid password -> Hf Hcall Hu Hp.
    assert (Hkind : classify (VStr "INVENTORY") = INVENTORY) by reflexivity.
    run_handler. do 2 eexists. split; [reflexivity|]. split; [reflexivity|].
    intros auth success g s2 Hs Ht Hg Hgc.
    pose proof (get_inl_not_nullish _ _ _ Hs) as Hauth.
    pose proof (get_inl_not_nullish _ _ _ Hu) as Hpay.
    destruct (get_not_nullish auth "cookies" Hauth) as (cookies & Hc).
    destruct (get_not_nullish payload "limit" Hpay) as (limit & Hl).
    run_handler. eexists; split; reflexivity.
  - intros f userid password -> Hf Hcall Hu Hp.
    assert (Hkind : classify (VStr "SINGLE_CHECK") = SINGLE_CHECK) by reflexivity.
    run_handler. do 2 eexists. split; [reflexivity|]. split; [reflexivity|].
    intros auth success g s2 Hs Ht Hg Hgc.
    pose proof (get_inl_not_nullish _ _ _ Hs) as Hauth.
    pose proof (get_inl_not_nullish _ _ _ Hu) as Hpay.
    destruct (get_not_nullish auth "cookies" Hauth) as (cookies & Hc).
    destruct (get_not_nullish payload "meterNo" Hpay) as (meterNo & Hn).
    run_handler. eexists; split; reflexivity.
Qed.

(** C7 (amended). A task does not keep the module it found at
    dispatch: every capability invocation reads the variable [logic]
    when the invocation is made.  The first invocation is thus made on
    the module present at dispatch, and a later step of a chain
    ([getInventoryList], [verifyMeter]) on the module present when the
    answer to the preceding step arrives, which is the replacement if a
    version sync installed one in between.  [METER_POST], [FAST_POST]
    and [LOGIN_CHECK] tasks make a single invocation and so run against
    the dispatch-time module only. *)
Theorem task_calls_module_current_at_call (s : store) (data : value)
        (rid : string) (taskType : value) :
  get data "requestId" = inl (VStr rid) ->
  get data "taskType" = inl taskType ->
  calls_current_module (on_execute_task data s) (logic s)
  /\ (classify taskType = METER_POST \/ classify taskType = FAST_POST
      \/ classify taskType = LOGIN_CHECK ->
      calls_at_most_once (on_execute_task data s)).
Proof.
  intros Hrid Htype. split.
  - exact (execute_task_calls_current_module s data rid Hrid).
  - intros Hkind.
    destruct (logic_ready (logic s)) eqn:Hready.
    + pose proof (get_inl_not_nullish _ _ _ Hrid) as Hdata.
      destruct (get_not_nullish data "payload" Hdata) as (payload & Hpayload).
      destruct (to_text HintString taskType) as [label|e] eqn:Hlabel;
        [|rewrite (on_execute_task_unprintable s data rid _ _ Hready Hrid Htype Hlabel);
          exact I].
      rewrite (on_execute_task_ready s data rid _ payload _ Hready Hrid Htype Hpayload Hlabel).
      unfold run_task, verifyLoginDetails, task_failed, text, prop, call, invoke.
      destruct Hkind as [Hkind | [Hkind | Hkind]]; case_handler.
    + rewrite (on_execute_task_not_ready s data Hready). exact I.
Qed.

(** *** Heartbeats *)

Lemma connect_adds_interval (sys : system) :
  intervals (st (step evaluate sys Connect)) =
  (intervals (st sys) ++ [10000])%list.
Proof.
  unfold step. rewrite (start_ret _ _ _ (on_connect_runs _)). reflexivity.
Qed.

Lemma connects_stack_intervals (n : nat) (sys : system) :
  intervals (st (run evaluate sys (repeat Connect n))) =
  (intervals (st sys) ++ repeat 10000 n)%list.
Proof.
  revert sys. induction n as [|n IH]; intros sys; cbn [repeat run fold_left].
  - now rewrite app_nil_r.
  - fold (run evaluate (step evaluate sys Connect) (repeat Connect n)).
    rewrite IH, connect_adds_interval, <- app_assoc. reflexivity.
Qed.

Lemma fire_intervals_heartbeats (n : nat) :
  fire_intervals 10000 (repeat 10000 n) = repeat ("heartbeat", []) n.
Proof.
  induction n as [|n IH]; [reflexivity|].
  cbn [repeat]. unfold fire_intervals in *. cbn [flat_map]. rewrite IH.
  reflexivity.
Qed.

(** After [n] connection-established events, every period of ten
    seconds sends [n] heartbeats. *)
Lemma heartbeats_per_period (n : nat) (sys : system) :
  intervals (st sys) = [] ->
  let sys' := run evaluate sys (repeat Connect n) in
  outbox (st (step evaluate sys' TenSeconds)) =
  (outbox (st sys') ++ repeat ("heartbeat", []) n)%list.
Proof.
  intros H sys'. cbn [step st add_outbox outbox]. subst sys'.
  now rewrite connects_stack_intervals, H, app_nil_l, fire_intervals_heartbeats.
Qed.


(** *** The whole switch of [execute_task] *)

Lemma classify_unknown (taskType : value) :
  taskType <> VStr "METER_POST" -> taskType <> VStr "FAST_POST" ->
  taskType <> VStr "LOGIN_CHECK" -> taskType <> VStr "INVENTORY" ->
  taskType <> VStr "SINGLE_CHECK" ->
  classify taskType = UnknownTask.
Proof.
  intros H1 H2 H3 H4 H5. destruct taskType as [| | | |t| | | | |]; try reflexivity.
  unfold classify.
  repeat match goal with
         | |- context [(t =? ?l)%string] =>
             destruct (String.eqb_spec t l) as [->|_]; [congruence|]
         end.
  reflexivity.
Qed.

(** X1. A task whose [taskType] is none of the five labels (a string
    that is not one of them, or not a string at all) and can be printed
    in the log line of the handler is answered at once with exactly one
    [task_completed] whose result is [{error: "Unknown Task Type"}]; no
    function of the module is called, whatever the payload is.  When
    [taskType] cannot be printed, the exception of the conversion
    leaves the handler at the log line, before the [try]: nothing is
    printed and nothing is emitted. *)
Theorem unknown_task_type_answered (s : store) (data : value) (rid : string)
        (taskType payload : value) :
  logic_ready (logic s) = true ->
  get data "requestId" = inl (VStr rid) ->
  get data "taskType" = inl taskType ->
  get data "payload" = inl payload ->
  taskType <> VStr "METER_POST" -> taskType <> VStr "FAST_POST" ->
  taskType <> VStr "LOGIN_CHECK" -> taskType <> VStr "INVENTORY" ->
  taskType <> VStr "SINGLE_CHECK" ->
  (forall label,
      to_text HintString taskType = inl label ->
      on_execute_task data s =
      Ret tt (completed (VStr rid) (VObj [("error", VStr "Unknown Task Type")])
                (add_console (LogProcessingTask taskType (VStr (substring 0 6 rid))) s)))
  /\ (forall e,
        to_text HintString taskType = inr e ->
        on_execute_task data s = Exn e s).
Proof.
  intros Hready Hrid Htype Hpayload H1 H2 H3 H4 H5. split.
  - intros label Hlabel.
    rewrite (on_execute_task_ready s data rid _ payload _ Hready Hrid Htype Hpayload Hlabel).
    pose proof (classify_unknown taskType H1 H2 H3 H4 H5) as Hkind.
    unfold run_task. run_handler. reflexivity.
  - intros e Hlabel.
    exact (on_execute_task_unprintable s data rid _ _ Hready Hrid Htype Hlabel).
Qed.

(** The first step of a batch task. *)
Lemma batch_task_suspends (s : store) (data : value) (rid t : string)
        (payload userid password meters f : value) :
  logic_ready (logic s) = true ->
  get data "requestId" = inl (VStr rid) ->
  get data "taskType" = inl (VStr t) ->
  t = "METER_POST" \/ t = "FAST_POST" ->
  get data "payload" = inl payload ->
  get payload "userid" = inl userid ->
  get payload "password" = inl password ->
  get payload "meters" = inl meters ->
  get (logic s) "processBatch" = inl f ->
  is_callable f = true ->
  exists k,
    on_execute_task data s =
      Susp f [userid; password; meters; VSendProgress (VStr rid)]
           (add_console (LogProcessingTask (VStr t) (VStr (substring 0 6 rid))) s) k
    /\ forall v s2, k (Returned v) s2 = Ret tt (completed (VStr rid) v s2).
Proof.
  intros Hready Hrid Htype Ht Hpayload Hu Hp Hm Hf Hcall.
  rewrite (on_execute_task_ready s data rid _ payload _ Hready Hrid Htype Hpayload eq_refl).
  unfold run_task, text, prop, call, invoke.
  destruct Ht as [-> | ->];
    [ assert (Hkind : classify (VStr "METER_POST") = METER_POST) by reflexivity
    | assert (Hkind : classify (VStr "FAST_POST") = FAST_POST) by reflexivity ];
    run_handler; eexists; (split; [reflexivity|]); intros v s2; reflexivity.
Qed.

(** X2. A [METER_POST] or [FAST_POST] task calls [processBatch] with
    [userid], [password] and [meters] of the payload (a missing one is
    passed as [undefined]) and with the progress callback bound to the
    task's [requestId]; whatever the call returns is the result of the
    one [task_completed], unchanged. *)
Theorem batch_result_passed_through (s : store) (data : value) (rid t : string)
        (payload userid password meters f : value) :
  logic_ready (logic s) = true ->
  get data "requestId" = inl (VStr rid) ->
  get data "taskType" = inl (VStr t) ->
  t = "METER_POST" \/ t = "FAST_POST" ->
  get data "payload" = inl payload ->
  get payload "userid" = inl userid ->
  get payload "password" = inl password ->
  get payload "meters" = inl meters ->
  get (logic s) "processBatch" = inl f ->
  is_callable f = true ->
  exists k,
    on_execute_task data s =
      Susp f [userid; password; meters; VSendProgress (VStr rid)]
           (add_console (LogProcessingTask (VStr t) (VStr (substring 0 6 rid))) s) k
    /\ forall v s2, k (Returned v) s2 = Ret tt (completed (VStr rid) v s2).
Proof.
  exact (batch_task_suspends s data rid t payload userid password meters f).
Qed.

(** X3. A module whose [processBatch] is truthy but not a function
    passes the readiness guard; a batch task sent to it makes no call
    and ends with the caught [TypeError] as
    [{error: "logic.processBatch is not a function", failed: 1}]. *)
Theorem batch_on_uncallable_processBatch (s : store) (data : value) (rid t : string)
        (payload pb : value) :
  truthy (logic s) = true ->
  get (logic s) "processBatch" = inl pb ->
  truthy pb = true -> is_callable pb = false ->
  get data "requestId" = inl (VStr rid) ->
  get data "taskType" = inl (VStr t) ->
  t = "METER_POST" \/ t = "FAST_POST" ->
  get data "payload" = inl payload ->
  is_nullish payload = false ->
  logic_ready (logic s) = true
  /\ on_execute_task data s =
     Ret tt (completed (VStr rid)
               (failure (VStr "logic.processBatch is not a function"))
               (add_console (LogError (VStr "logic.processBatch is not a function"))
                  (add_console (LogProcessingTask (VStr t) (VStr (substring 0 6 rid))) s))).
Proof.
  intros Hm Hpb Htpb Hcall Hrid Htype Ht Hpayload Hnn.
  assert (Hready : logic_ready (logic s) = true).
  { unfold logic_ready. now rewrite Hm, Hpb. }
  split; [exact Hready|].
  rewrite (on_execute_task_ready s data rid _ payload _ Hready Hrid Htype Hpayload eq_refl).
  destruct (get_not_nullish payload "userid" Hnn) as (userid & Hu).
  destruct (get_not_nullish payload "password" Hnn) as (password & Hp).
  destruct (get_not_nullish payload "meters" Hnn) as (meters & Hme).
  unfold run_task, task_failed, text, prop, call, invoke.
  destruct Ht as [-> | ->];
    [ assert (Hkind : classify (VStr "METER_POST") = METER_POST) by reflexivity
    | assert (Hkind : classify (VStr "FAST_POST") = FAST_POST) by reflexivity ];
    run_handler; reflexivity.
Qed.

(** X4. A [LOGIN_CHECK] task calls [verifyLoginDetails] with [userid]
    and [password] of the payload and reports what the call returns,
    unchanged, a failed login included: there is no "Login Failed"
    wrapping on this path. *)
Theorem login_check_passed_through (s : store) (data : value) (rid : string)
        (payload userid password f : value) :
  logic_ready (logic s) = true ->
  get data "requestId" = inl (VStr rid) ->
  get data "taskType" = inl (VStr "LOGIN_CHECK") ->
  get data "payload" = inl payload ->
  get payload "userid" = inl userid ->
  get payload "password" = inl password ->
  get (logic s) "verifyLoginDetails" = inl f ->
  is_callable f = true ->
  exists k,
    on_execute_task data s =
      Susp f [userid; password]
           (add_console (LogProcessingTask (VStr "LOGIN_CHECK")
                                           (VStr (substring 0 6 rid))) s) k
    /\ (forall v s2, k (Returned v) s2 = Ret tt (completed (VStr rid) v s2))
    /\ (forall v s2, no_call (k (Returned v) s2)).
Proof.
  intros Hready Hrid Htype Hpayload Hu Hp Hf Hcall.
  rewrite (on_execute_task_ready s data rid _ payload _ Hready Hrid Htype Hpayload eq_refl).
  assert (Hkind : classify (VStr "LOGIN_CHECK") = LOGIN_CHECK) by reflexivity.
  unfold run_task, verifyLoginDetails, text, prop, call, invoke.
  run_handler. eexists. split; [reflexivity|].
  split; intros v s2; [reflexivity | exact I].
Qed.

(** X5. A task that arrives without a payload (the key is missing, or
    [null]) calls nothing: reading [payload.userid] throws inside the
    [try], and the task ends with one [task_completed] whose result is
    the caught error, for each of the five task types and whatever the
    module exports besides [processBatch]. *)
Theorem task_without_payload_fails_cleanly (s : store) (data : value)
        (rid : string) (taskType payload : value) :
  logic_ready (logic s) = true ->
  get data "requestId" = inl (VStr rid) ->
  get data "taskType" = inl taskType ->
  get data "payload" = inl payload ->
  is_nullish payload = true ->
  In taskType [VStr "METER_POST"; VStr "FAST_POST"; VStr "LOGIN_CHECK";
               VStr "INVENTORY"; VStr "SINGLE_CHECK"] ->
  exists s',
    on_execute_task data s =
    Ret tt (completed (VStr rid)
              (failure (VStr ("Cannot read properties of "
                              ++ to_string payload ++ " (reading 'userid')")))
              s')
    /\ outbox s' = outbox s.
Proof.
  intros Hready Hrid Htype Hpayload Hnull Hlabel.
  assert (Hkind : classify taskType <> UnknownTask).
  { cbn in Hlabel.
    destruct Hlabel as [<- | [<- | [<- | [<- | [<- | []]]]]]; discriminate. }
  assert (Htext : exists label, to_text HintString taskType = inl label).
  { cbn in Hlabel.
    destruct Hlabel as [<- | [<- | [<- | [<- | [<- | []]]]]]; eexists; reflexivity. }
  destruct Htext as (label & Htext).
  rewrite (on_execute_task_ready s data rid _ payload _ Hready Hrid Htype Hpayload Htext).
  clear Htext.
  assert (Hu : get payload "userid" = inr (cannot_read payload "userid"))
    by (destruct payload; try discriminate Hnull; reflexivity).
  assert (Hl : is_nullish (logic s) = false).
  { unfold logic_ready in Hready. destruct (logic s); try discriminate Hready;
      reflexivity. }
  unfold run_task, verifyLoginDetails, task_failed, text, prop, call, invoke.
  destruct (classify taskType) eqn:Hc; try congruence;
    run_handler;
    match goal with
    | |- context [get (logic s) ?k] =>
        destruct (get_not_nullish (logic s) k Hl) as (g & Hg)
    end;
    run_handler;
    (destruct payload; try discriminate Hnull);
    eexists; split; reflexivity.
Qed.


(** *** Progress reports *)

Lemma sendProgress_runs (rid progressData : value) (s : store)
      (current total status : value) (a b c : string) :
  get progressData "current" = inl current -> to_text HintString current = inl a ->
  get progressData "total" = inl total -> to_text HintString total = inl b ->
  get progressData "status" = inl status -> to_text HintString status = inl c ->
  sendProgress rid progressData s =
  Ret tt (add_outbox
            [("task_progress",
              [VObj [("requestId", rid); ("progress", progressData)]])]
            (add_console (LogProgress current total status) s)).
Proof.
  intros Hc Ha Ht Hb Hs Hc'.
  unfold sendProgress, text, prop. run_handler. reflexivity.
Qed.

(** The callback either prints its line and emits [task_progress], or
    throws before it has done anything: at the read of a property of
    [null] or [undefined], or at the conversion of a property that
    cannot be printed. *)
Lemma sendProgress_cases (rid progressData : value) (s : store) :
  (exists current total status a b c,
      get progressData "current" = inl current
      /\ to_text HintString current = inl a
      /\ get progressData "total" = inl total
      /\ to_text HintString total = inl b
      /\ get progressData "status" = inl status
      /\ to_text HintString status = inl c
      /\ sendProgress rid progressData s =
         Ret tt (add_outbox
                   [("task_progress",
                     [VObj [("requestId", rid); ("progress", progressData)]])]
                   (add_console (LogProgress current total status) s)))
  \/ (exists e,
         sendProgress rid progressData s = Exn e s
         /\ (is_nullish progressData = true
             \/ exists k v, In k ["current"; "total"; "status"]
                            /\ get progressData k = inl v
                            /\ to_text HintString v = inr e)).
Proof.
  destruct (is_nullish progressData) eqn:Hn.
  - right. exists (cannot_read progressData "current"). split; [|now left].
    destruct progressData; try discriminate Hn; reflexivity.
  - destruct (get_not_nullish progressData "current" Hn) as (current & Hc).
    destruct (get_not_nullish progressData "total" Hn) as (total & Ht).
    destruct (get_not_nullish progressData "status" Hn) as (status & Hs).
    unfold sendProgress, text, prop.
    destruct (to_text HintString current) as [a|e] eqn:Ha;
      [|right; exists e; split;
        [run_handler; reflexivity
        |right; exists "current", current; cbn; auto]].
    destruct (to_text HintString total) as [b|e] eqn:Hb;
      [|right; exists e; split;
        [run_handler; reflexivity
        |right; exists "total", total; cbn; auto]].
    destruct (to_text HintString status) as [c|e] eqn:Hc';
      [|right; exists e; split;
        [run_handler; reflexivity
        |right; exists "status", status; cbn; auto]].
    left. exists current, total, status, a, b, c.
    repeat (split; [assumption|]). run_handler. reflexivity.
Qed.

(** X6. Each time the logic module calls the progress callback of a
    task with a progress object whose [current], [total] and [status]
    can be printed, exactly one [task_progress] is emitted, carrying the
    [requestId] of the task the callback was made for and the progress
    object as it is.  Called with [null] or [undefined], or with a
    property that cannot be printed, the callback emits nothing (it
    throws back to its caller).  Nothing else happens in either case:
    no change to the suspended handlers, to the module or to the
    file. *)
Theorem progress_is_forwarded (sys : system) (rid progressData : value) :
  let sys' := step evaluate sys (Callback (VSendProgress rid) progressData) in
  (forall current total status a b c,
      get progressData "current" = inl current ->
      to_text HintString current = inl a ->
      get progressData "total" = inl total ->
      to_text HintString total = inl b ->
      get progressData "status" = inl status ->
      to_text HintString status = inl c ->
      outbox (st sys') =
      (outbox (st sys)
       ++ [("task_progress",
            [VObj [("requestId", rid); ("progress", progressData)]])])%list)
  /\ (is_nullish progressData = true -> st sys' = st sys)
  /\ (forall k v e,
        In k ["current"; "total"; "status"] ->
        get progressData k = inl v ->
        to_text HintString v = inr e ->
        st sys' = st sys)
  /\ pending sys' = pending sys
  /\ invocations sys' = invocations sys
  /\ unhandled sys' = unhandled sys
  /\ logic (st sys') = logic (st sys)
  /\ disk (st sys') = disk (st sys)
  /\ intervals (st sys') = intervals (st sys).
Proof.
  cbn zeta. unfold step, callback.
  destruct (sendProgress_cases rid progressData (st sys))
    as [(current & total & status & a & b & c & Hc & Ha & Ht & Hb & Hs & Hc' & Hrun)
       | (e & Hrun & Hwhy)];
    rewrite Hrun; cbn.
  - split; [intros; reflexivity|].
    split; [intros Hn; destruct progressData; discriminate|].
    split; [|repeat split].
    intros k v e Hin Hk Hv.
    destruct Hin as [<- | [<- | [<- | []]]]; congruence.
  - split; [|repeat split].
    intros current total status a b c Hc Ha Ht Hb Hs Hc'.
    destruct Hwhy as [Hn | (k & v & Hin & Hk & Hv)].
    + apply get_inl_not_nullish in Hc. congruence.
    + destruct Hin as [<- | [<- | [<- | []]]]; congruence.
Qed.


(** *** Reloading and start-up *)

(** X7. Hot reload: when [logic.js] is readable and its evaluation
    succeeds, [loadLogic] installs the module the file evaluates to,
    whatever module was loaded and whatever the module cache held (a
    plain [require] would have returned the cached module); it returns
    [true] exactly when the new module passes the readiness guard, and
    touches neither the file nor the socket. *)
Theorem loadLogic_reloads_from_disk (s : store) (bytes : list byte) (m : value) :
  logic_js (disk s) = Some bytes ->
  readable (disk s) = true ->
  evaluate bytes = Returned m ->
  (exists s',
      loadLogic evaluate s = Ret (logic_ready m) s'
      /\ logic s' = m /\ require_cache s' = Some m
      /\ disk s' = disk s /\ outbox s' = outbox s)
  /\ (forall stale, require_cache s = Some stale ->
                    require_logic evaluate s = Ret stale s).
Proof.
  intros Hf Hr He. split.
  - rewrite (loadLogic_returns s bytes m Hf Hr He).
    destruct (logic_ready m); eexists; repeat split.
  - intros stale Hc. unfold require_logic, read_cache. cbn. rewrite Hc.
    reflexivity.
Qed.

Lemma startup_with_file (s : store) (bytes : list byte) :
  logic_js (disk s) = Some bytes ->
  exists s', startup evaluate s = Ret tt s'
             /\ disk s' = disk s /\ outbox s' = outbox s
             /\ intervals s' = intervals s.
Proof.
  intros Hf. unfold startup, fs_exists, existsSync.
  cbn -[loadLogic]. rewrite Hf. cbn -[loadLogic].
  destruct (loadLogic_frame s) as (b & s' & -> & Hd & Ho & Hi).
  cbn. eauto.
Qed.

Lemma startup_creates_file (s : store) :
  logic_js (disk s) = None -> writable (disk s) = true ->
  exists s', startup evaluate s = Ret tt s'
             /\ disk s' = {| logic_js := Some (utf8_encode "// Waiting for server update...");
                             readable := readable (disk s); writable := true |}
             /\ outbox s' = outbox s /\ intervals s' = intervals s.
Proof.
  intros Hf Hw. unfold startup, fs_exists, existsSync, fs_write, writeFileSync.
  cbn -[loadLogic utf8_encode]. rewrite Hf. cbn -[loadLogic utf8_encode].
  rewrite Hw. cbn -[loadLogic utf8_encode].
  match goal with
  | |- context [loadLogic evaluate ?s0] =>
      destruct (loadLogic_frame s0) as (b & s' & -> & Hd & Ho & Hi)
  end.
  cbn -[utf8_encode]. eexists. split; [reflexivity|].
  rewrite Hd, Ho, Hi. repeat split.
Qed.

Lemma startup_cannot_create_file (s : store) :
  logic_js (disk s) = None -> writable (disk s) = false ->
  startup evaluate s =
  Exn (fs_error "EACCES" "permission denied") (add_console LogLogicMissing s).
Proof.
  intros Hf Hw. unfold startup, fs_exists, existsSync, fs_write, writeFileSync.
  cbn -[loadLogic utf8_encode]. rewrite Hf. cbn -[loadLogic utf8_encode].
  rewrite Hw. reflexivity.
Qed.

(** When start-up is over nothing has been sent, no interval is
    registered and no handler is suspended. *)
Lemma launch_quiet (fs : filesys) :
  outbox (st (launch evaluate fs)) = []
  /\ intervals (st (launch evaluate fs)) = []
  /\ pending (launch evaluate fs) = [].
Proof.
  unfold launch.
  destruct (logic_js fs) as [bytes|] eqn:Hf.
  - destruct (startup_with_file (initial_store fs) bytes Hf)
      as (s' & Hrun & Hd & Ho & Hi).
    rewrite (start_ret (startup evaluate) (boot (initial_store fs)) s' Hrun).
    cbn. rewrite Ho, Hi. repeat split.
  - destruct (writable fs) eqn:Hw.
    + destruct (startup_creates_file (initial_store fs) Hf Hw)
        as (s' & Hrun & Hd & Ho & Hi).
      rewrite (start_ret (startup evaluate) (boot (initial_store fs)) s' Hrun).
      cbn. rewrite Ho, Hi. repeat split.
    + rewrite (start_exn (startup evaluate) (boot (initial_store fs)) _ _
                 (startup_cannot_create_file (initial_store fs) Hf Hw)).
      repeat split.
Qed.

(** X8. Start-up: an existing [logic.js] is never overwritten; a
    missing one is created with exactly the placeholder text; when it
    cannot be created the exception of the write is not caught and the
    process ends before anything is loaded.  In every case nothing has
    been sent on the socket, no interval is registered and no handler is
    suspended when start-up is over. *)
Theorem startup_keeps_or_creates_logic_file (fs : filesys) :
  let sys := launch evaluate fs in
  (forall bytes, logic_js fs = Some bytes ->
                 disk (st sys) = fs /\ unhandled sys = [])
  /\ (logic_js fs = None -> writable fs = true ->
      logic_js (disk (st sys)) = Some (utf8_encode "// Waiting for server update...")
      /\ unhandled sys = [])
  /\ (logic_js fs = None -> writable fs = false ->
      disk (st sys) = fs /\ logic (st sys) = VUndef
      /\ unhandled sys = [fs_error "EACCES" "permission denied"])
  /\ outbox (st sys) = [] /\ intervals (st sys) = [] /\ pending sys = [].
Proof.
  cbn zeta. unfold launch.
  destruct (logic_js fs) as [bytes|] eqn:Hf.
  - destruct (startup_with_file (initial_store fs) bytes Hf)
      as (s' & Hrun & Hd & Ho & Hi).
    rewrite (start_ret (startup evaluate) (boot (initial_store fs)) s' Hrun). cbn. rewrite Hd, Ho, Hi. cbn.
    repeat split; intros; try discriminate; reflexivity.
  - destruct (writable fs) eqn:Hw.
    + destruct (startup_creates_file (initial_store fs) Hf Hw)
        as (s' & Hrun & Hd & Ho & Hi).
      rewrite (start_ret (startup evaluate) (boot (initial_store fs)) s' Hrun). cbn -[utf8_encode].
      rewrite Hd, Ho, Hi. cbn -[utf8_encode].
      repeat split; intros; try discriminate; reflexivity.
    + rewrite (start_exn (startup evaluate) (boot (initial_store fs)) _ _
               (startup_cannot_create_file (initial_store fs) Hf Hw)).
      cbn. repeat split; intros; try discriminate; reflexivity.
Qed.


(** *** What the handlers never touch *)

(** Whatever the task and whatever its calls are answered with, the
    handler of [execute_task] changes neither the file, the module
    cache, the variable [logic] nor the intervals. *)
Lemma execute_task_keeps_setup (data : value) (s : store) :
  keeps_setup (on_execute_task data s) s.
Proof.
  destruct (logic_ready (logic s)) eqn:Hready.
  - unfold on_execute_task, destructure, substring_0_6, run_task,
      verifyLoginDetails, task_failed, text, prop, call, invoke.
    destruct (is_nullish data) eqn:Hdata;
      [run_handler; repeat split|].
    destruct (get data "requestId") as [rq|e] eqn:Hrq; [|absurd_read].
    destruct rq; case_handler; reflexivity.
  - rewrite (on_execute_task_not_ready s data Hready). cbn. repeat split.
Qed.


Lemma update_runs_to_end (data : value) (s : store) :
  exists s', on_update_logic_file evaluate data s = Ret tt s'
             /\ intervals s' = intervals s /\ outbox s' = outbox s.
Proof.
  unfold on_update_logic_file, prop, fs_write, writeFileSync.
  destruct (get data "content") as [content|e] eqn:Hc.
  - destruct content; try solve [cbn; eexists; repeat split].
    cbn -[loadLogic].
    destruct (writable (disk s)) eqn:Hw; cbn -[loadLogic].
    + match goal with
      | |- context [loadLogic evaluate ?s0] =>
          destruct (loadLogic_frame s0) as (b & s1 & -> & Hd & Ho & Hi)
      end.
      cbn. eexists. split; [reflexivity|]. cbn. rewrite Ho, Hi. split; reflexivity.
    + eexists; repeat split.
  - assert (He : e = cannot_read data "content").
    { destruct data; cbn in Hc; try discriminate Hc; now injection Hc. }
    subst e. cbn. eexists; repeat split.
Qed.

(** The handler of [connect_error] prints its line, or throws at the
    read or at the conversion of [err.message]; it changes nothing
    else. *)
Lemma on_connect_error_cases (err : value) (s : store) :
  (exists m, on_connect_error err s = Ret tt (add_console (LogConnectionFailed m) s))
  \/ (exists e, on_connect_error err s = Exn e s).
Proof.
  unfold on_connect_error, text, prop.
  destruct (get err "message") as [m|e] eqn:Hm; [|right; exists e; reflexivity].
  destruct (to_text HintString m) as [line|e] eqn:Hline.
  - left. exists m. run_handler. reflexivity.
  - right. exists e. run_handler. reflexivity.
Qed.

Lemma find_ticket_In {A : Type} (t : nat) (l : list (nat * A)) (a : A) :
  find_ticket t l = Some a -> In (t, a) l.
Proof.
  induction l as [|[t' a'] l IH]; cbn; [discriminate|].
  destruct (Nat.eqb_spec t t') as [->|_].
  - intros H. injection H as ->. now left.
  - intros H. right. now apply IH.
Qed.

Lemma In_drop_ticket {A : Type} (t t' : nat) (a : A) (l : list (nat * A)) :
  In (t, a) (drop_ticket t' l) -> In (t, a) l.
Proof. unfold drop_ticket. intros H. now apply filter_In in H. Qed.

(** The handlers that can be suspended keep the setup: an invariant of
    the event loop. *)
Lemma step_keeps_invariant (sys : system) (ev : event) :
  suspended_keep_setup sys -> suspended_keep_setup (step evaluate sys ev).
Proof.
  intros Inv.
  assert (Hstart : forall h, keeps_setup (h (st sys)) (st sys) ->
                             suspended_keep_setup (start h sys)).
  { intros h Hk t k Hin. unfold start in Hin.
    destruct (h (st sys)) as [a s'|e s'|c args s' k']; cbn in Hin;
      try (exact (Inv t k Hin)).
    apply in_app_or in Hin. destruct Hin as [Hin | [Hin | []]].
    - exact (Inv t k Hin).
    - injection Hin as <- <-. exact (proj2 Hk). }
  assert (Hend : forall h, no_call (h (st sys)) ->
                           suspended_keep_setup (start h sys)).
  { intros h Hn t k Hin. unfold start in Hin.
    destruct (h (st sys)) as [a s'|e s'|c args s' k']; cbn in Hin;
      [exact (Inv t k Hin) | exact (Inv t k Hin) | destruct Hn]. }
  destruct ev as [|err|data| |data| |t o|f arg]; cbn [step].
  - apply Hend. rewrite on_connect_runs. exact I.
  - apply Hend.
    destruct (on_connect_error_cases err (st sys)) as [(m & ->) | (e & ->)];
      exact I.
  - apply Hend. destruct (update_runs_to_end data (st sys)) as (s' & -> & _).
    exact I.
  - apply Hend. exact I.
  - apply Hstart. apply execute_task_keeps_setup.
  - exact Inv.
  - unfold settle. destruct (find_ticket t (pending sys)) as [k|] eqn:Hk;
      [|exact Inv].
    pose proof (Inv t k (find_ticket_In _ _ _ Hk) o (st sys)) as Hko.
    intros t' k' Hin.
    destruct (k o (st sys)) as [a s'|e s'|c args s' k'']; cbn in Hin;
      try (exact (Inv t' k' (In_drop_ticket _ _ _ _ Hin))).
    apply in_app_or in Hin. destruct Hin as [Hin | [Hin | []]].
    + exact (Inv t' k' (In_drop_ticket _ _ _ _ Hin)).
    + injection Hin as <- <-. exact (proj2 Hko).
  - unfold callback. destruct f; try exact Inv.
    destruct (sendProgress f arg (st sys)); exact Inv.
Qed.

Lemma launch_keeps_invariant (fs : filesys) :
  suspended_keep_setup (launch evaluate fs).
Proof.
  intros t k Hin.
  destruct (launch_quiet fs) as (_ & _ & Hp).
  rewrite Hp in Hin. destruct Hin.
Qed.

Lemma run_keeps_invariant (evs : list event) (sys : system) :
  suspended_keep_setup sys -> suspended_keep_setup (run evaluate sys evs).
Proof.
  revert sys. induction evs as [|ev evs IH]; intros sys Inv; [exact Inv|].
  cbn [run fold_left]. apply IH. now apply step_keeps_invariant.
Qed.

(** What one event does to the setup. *)
Lemma step_setup (sys : system) (ev : event) :
  suspended_keep_setup sys ->
  ((forall data, ev <> UpdateLogicFile data) ->
   disk (st (step evaluate sys ev)) = disk (st sys)
   /\ require_cache (st (step evaluate sys ev)) = require_cache (st sys)
   /\ logic (st (step evaluate sys ev)) = logic (st sys))
  /\ intervals (st (step evaluate sys ev)) =
     (intervals (st sys) ++ match ev with Connect => [10000] | _ => [] end)%list.
Proof.
  intros Inv.
  assert (Hkeep : forall (r : res unit) s0,
             keeps_setup r s0 ->
             forall t sys0,
               disk (st (absorb t r sys0)) = disk s0
               /\ require_cache (st (absorb t r sys0)) = require_cache s0
               /\ logic (st (absorb t r sys0)) = logic s0
               /\ intervals (st (absorb t r sys0)) = intervals s0).
  { intros r s0 Hk t sys0. destruct r; cbn in *; tauto. }
  destruct ev as [|err|data| |data| |t o|f arg]; cbn [step].
  - unfold start. rewrite on_connect_runs. cbn. repeat split.
  - unfold start.
    destruct (on_connect_error_cases err (st sys)) as [(m & ->) | (e & ->)];
      cbn; rewrite app_nil_r; repeat split.
  - split; [intros H; now destruct (H data)|].
    unfold start. destruct (update_runs_to_end data (st sys)) as (s' & -> & Hi & _).
    cbn. now rewrite app_nil_r.
  - unfold start. cbn. rewrite app_nil_r. repeat split.
  - unfold start.
    destruct (Hkeep _ _ (execute_task_keeps_setup data (st sys)) (next_ticket sys)
                    {| st := st sys; pending := pending sys;
                       next_ticket := S (next_ticket sys);
                       invocations := invocations sys;
                       unhandled := unhandled sys |})
      as (Hd & Hc & Hl & Hi).
    rewrite app_nil_r. repeat split; assumption.
  - cbn. rewrite app_nil_r. repeat split.
  - rewrite app_nil_r. unfold settle.
    destruct (find_ticket t (pending sys)) as [k|] eqn:Hk; [|repeat split].
    pose proof (Inv t k (find_ticket_In _ _ _ Hk) o (st sys)) as Hko.
    destruct (Hkeep _ _ Hko t
                    {| st := st sys; pending := drop_ticket t (pending sys);
                       next_ticket := next_ticket sys;
                       invocations := invocations sys;
                       unhandled := unhandled sys |})
      as (Hd & Hc & Hl & Hi).
    repeat split; assumption.
  - rewrite app_nil_r. unfold callback.
    destruct f; try solve [cbn; repeat split].
    destruct (sendProgress_cases f arg (st sys))
      as [(current & total & status & a & b & c & _ & _ & _ & _ & _ & _ & Hrun)
         | (e & Hrun & _)];
      rewrite Hrun; cbn; repeat split.
Qed.


Lemma run_without_update (evs : list event) (sys : system) :
  suspended_keep_setup sys ->
  no_update evs = true ->
  disk (st (run evaluate sys evs)) = disk (st sys)
  /\ require_cache (st (run evaluate sys evs)) = require_cache (st sys)
  /\ logic (st (run evaluate sys evs)) = logic (st sys).
Proof.
  revert sys. induction evs as [|ev evs IH]; intros sys Inv Hno;
    [repeat split|].
  cbn [run fold_left].
  assert (Hev : forall data, ev <> UpdateLogicFile data)
    by (intros data ->; discriminate Hno).
  assert (Hrest : no_update evs = true) by (destruct ev; try exact Hno; discriminate Hno).
  destruct (proj1 (step_setup sys ev Inv) Hev) as (Hd & Hc & Hl).
  destruct (IH (step evaluate sys ev) (step_keeps_invariant sys ev Inv) Hrest)
    as (Hd' & Hc' & Hl').
  unfold run in *. rewrite Hd', Hc', Hl'. repeat split; assumption.
Qed.

Lemma run_intervals (evs : list event) (sys : system) :
  suspended_keep_setup sys ->
  intervals (st (run evaluate sys evs)) =
  (intervals (st sys) ++ repeat 10000 (connects evs))%list.
Proof.
  revert sys. induction evs as [|ev evs IH]; intros sys Inv.
  - cbn. now rewrite app_nil_r.
  - cbn [run fold_left].
    fold (run evaluate (step evaluate sys ev) evs).
    rewrite (IH _ (step_keeps_invariant sys ev Inv)).
    rewrite (proj2 (step_setup sys ev Inv)), <- app_assoc.
    destruct ev; reflexivity.
Qed.

(** X9. From start-up on, the file [logic.js], the module cache and
    the loaded module change at [update_logic_file] events only: no
    sequence of connections, connection errors, [logic_uptodate]
    messages, tasks (whatever their calls return or throw, in whatever
    order the answers arrive), progress reports and timer ticks alters
    them. *)
Theorem setup_changes_only_on_update (fs : filesys) (evs : list event) :
  no_update evs = true ->
  let sys0 := launch evaluate fs in
  let sys := run evaluate sys0 evs in
  disk (st sys) = disk (st sys0)
  /\ require_cache (st sys) = require_cache (st sys0)
  /\ logic (st sys) = logic (st sys0).
Proof.
  intros Hno. exact (run_without_update evs _ (launch_keeps_invariant fs) Hno).
Qed.

(** X10. In every run of the process, whatever else happens in
    between, the number of registered heartbeat intervals is the number
    of connection-established events so far, each of period 10000 ms,
    and a period of ten seconds sends that many [heartbeat] messages
    and nothing else. *)
Theorem heartbeats_count_connections (fs : filesys) (evs : list event) :
  let sys := run evaluate (launch evaluate fs) evs in
  intervals (st sys) = repeat 10000 (connects evs)
  /\ outbox (st (step evaluate sys TenSeconds)) =
     (outbox (st sys) ++ repeat ("heartbeat", []) (connects evs))%list.
Proof.
  cbn zeta.
  assert (Hi : intervals (st (run evaluate (launch evaluate fs) evs))
               = repeat 10000 (connects evs)).
  { rewrite (run_intervals evs _ (launch_keeps_invariant fs)).
    destruct (launch_quiet fs) as (_ & -> & _). reflexivity. }
  split; [exact Hi|].
  cbn [step st add_outbox outbox]. now rewrite Hi, fire_intervals_heartbeats.
Qed.


(** *** Updates, continued *)

(** The store after an update whose write succeeds. *)
Lemma update_setup (s : store) (data : value) (content : string) :
  get data "content" = inl (VStr content) ->
  writable (disk s) = true ->
  exists s',
    on_update_logic_file evaluate data s = Ret tt s'
    /\ disk s' = {| logic_js := Some (utf8_encode content);
                    readable := readable (disk s); writable := true |}
    /\ ((exists m,
            readable (disk s) = true
            /\ evaluate (utf8_encode content) = Returned m
            /\ logic s' = m /\ require_cache s' = Some m
            /\ console s' =
               (console s ++ [LogDownloading; LogFileSaved]
                ++ (if logic_ready m then [LogLogicLoaded] else [])
                ++ [LogReadyForTasks])%list)
        \/ ((readable (disk s) = false
             \/ exists e, evaluate (utf8_encode content) = Thrown e)
            /\ logic s' = logic s /\ require_cache s' = None
            /\ console s' =
               (console s ++ [LogDownloading; LogFileSaved; LogLogicNotReadyYet;
                              LogReadyForTasks])%list)).
Proof.
  intros Hc Hw.
  unfold on_update_logic_file, prop, fs_write, writeFileSync.
  cbn -[loadLogic]. rewrite Hc. cbn -[loadLogic]. rewrite Hw.
  cbn -[loadLogic].
  match goal with
  | |- context [loadLogic evaluate ?s0] => set (s1 := s0)
  end.
  assert (Hf : logic_js (disk s1) = Some (utf8_encode content)) by reflexivity.
  destruct (readable (disk s)) eqn:Hr.
  - assert (Hr1 : readable (disk s1) = true) by reflexivity.
    destruct (evaluate (utf8_encode content)) as [m|e] eqn:He.
    + rewrite (loadLogic_returns s1 _ m Hf Hr1 He).
      destruct (logic_ready m) eqn:Hm; cbn; eexists;
        (split; [reflexivity|]); cbn; rewrite ?Hr;
        (split; [reflexivity|]); left; exists m; rewrite ?Hm;
        repeat split; now rewrite <- !app_assoc.
    + rewrite (loadLogic_throws s1 _ e Hf Hr1 He). cbn. eexists.
      split; [reflexivity|]. cbn. rewrite ?Hr. split; [reflexivity|].
      right. repeat split; [right; now exists e | now rewrite <- !app_assoc].
  - assert (Hr1 : readable (disk s1) = false) by reflexivity.
    rewrite (loadLogic_unreadable s1 _ Hf Hr1). cbn. eexists.
    split; [reflexivity|]. cbn. rewrite ?Hr. split; [reflexivity|].
    right. repeat split; [now left | now rewrite <- !app_assoc].
Qed.

(** X11. An update whose text evaluates to a module replaces the
    loaded module at once, whatever module was loaded before and
    whether or not the new one is ready; the handler prints "Ready for
    tasks!" in either case, and "Logic module loaded successfully."
    only when the new module passes the readiness guard. *)
Theorem update_installs_new_module (sys : system) (data : value)
        (content : string) (m : value) :
  get data "content" = inl (VStr content) ->
  writable (disk (st sys)) = true ->
  readable (disk (st sys)) = true ->
  evaluate (utf8_encode content) = Returned m ->
  let sys' := step evaluate sys (UpdateLogicFile data) in
  logic (st sys') = m
  /\ require_cache (st sys') = Some m
  /\ console (st sys') =
     (console (st sys) ++ [LogDownloading; LogFileSaved]
      ++ (if logic_ready m then [LogLogicLoaded] else [])
      ++ [LogReadyForTasks])%list
  /\ pending sys' = pending sys /\ unhandled sys' = unhandled sys.
Proof.
  intros Hc Hw Hr He. cbn zeta. cbn [step].
  destruct (update_setup (st sys) data content Hc Hw)
    as (s' & Hrun & Hd & [(m' & _ & He' & Hl & Hcache & Hcon)
                         | ([Hr' | (e & He')] & _)]);
    try congruence.
  rewrite (start_ret _ _ _ Hrun). cbn [st pending unhandled].
  assert (Hm : m' = m) by congruence. rewrite Hm in *.
  repeat split; assumption.
Qed.

(** X12. An update whose text cannot be evaluated (a syntax error, an
    exception at the module's top level) still replaces the file: the
    worker keeps running the module it had, while the hash it reports
    from then on is the hash of the new text.  The handler prints
    "Ready for tasks!" all the same, and nothing escapes it. *)
Theorem update_that_does_not_evaluate (sys : system) (data : value)
        (content : string) (e : value) :
  get data "content" = inl (VStr content) ->
  writable (disk (st sys)) = true ->
  readable (disk (st sys)) = true ->
  evaluate (utf8_encode content) = Thrown e ->
  let sys' := step evaluate sys (UpdateLogicFile data) in
  logic (st sys') = logic (st sys)
  /\ logic_js (disk (st sys')) = Some (utf8_encode content)
  /\ hash_of_disk (disk (st sys')) = VStr (Md5.md5_hex (utf8_encode content))
  /\ console (st sys') =
     (console (st sys) ++ [LogDownloading; LogFileSaved; LogLogicNotReadyYet;
                           LogReadyForTasks])%list
  /\ unhandled sys' = unhandled sys.
Proof.
  intros Hc Hw Hr He. cbn zeta. cbn [step].
  destruct (update_setup (st sys) data content Hc Hw)
    as (s' & Hrun & Hd & [(m' & _ & He' & _) | (_ & Hl & _ & Hcon)]);
    try congruence.
  rewrite (start_ret _ _ _ Hrun). cbn. rewrite Hd. unfold hash_of_disk. cbn.
  rewrite Hr. repeat split; assumption.
Qed.


(** X14. An [update_logic_file] message without a payload ([data] is
    [undefined] or [null]) changes nothing: reading [data.content]
    throws inside the [try], the failure is printed, and the file, the
    module cache, the loaded module and the socket are as before; no
    exception leaves the handler. *)
Theorem update_without_text_changes_nothing (sys : system) (data : value) :
  is_nullish data = true ->
  let sys' := step evaluate sys (UpdateLogicFile data) in
  console (st sys') =
    (console (st sys)
     ++ [LogDownloading;
         LogUpdateFailed (VStr ("Cannot read properties of " ++ to_string data
                                ++ " (reading 'content')"))])%list
  /\ disk (st sys') = disk (st sys)
  /\ require_cache (st sys') = require_cache (st sys)
  /\ logic (st sys') = logic (st sys)
  /\ outbox (st sys') = outbox (st sys)
  /\ pending sys' = pending sys
  /\ unhandled sys' = unhandled sys.
Proof.
  intros Hn. cbn zeta. cbn [step]. unfold start.
  unfold on_update_logic_file, prop, fs_write, writeFileSync.
  destruct data; try discriminate Hn; cbn;
    (split; [now rewrite <- app_assoc | repeat split]).
Qed.


(** *** Identifiers and digests *)

Lemma all_chars_app (p : ascii -> bool) (a b : string) :
  Identity.all_chars p (a ++ b) = Identity.all_chars p a && Identity.all_chars p b.
Proof.
  induction a as [|c a IH]; cbn; [reflexivity|].
  now rewrite IH, andb_assoc.
Qed.

Lemma all_chars_map (p q : ascii -> bool) (f : ascii -> ascii) (s : string) :
  (forall c, q c = true -> p (f c) = true) ->
  Identity.all_chars q s = true ->
  Identity.all_chars p (Identity.map_string f s) = true.
Proof.
  intros Hf. induction s as [|c s IH]; cbn; [reflexivity|].
  intros H. apply andb_true_iff in H as [Hc Hs].
  now rewrite (Hf c Hc), (IH Hs).
Qed.

Lemma length_map_string (f : ascii -> ascii) (s : string) :
  String.length (Identity.map_string f s) = String.length s.
Proof. induction s as [|c s IH]; cbn; [reflexivity | now rewrite IH]. Qed.

Lemma length_append (a b : string) :
  String.length (a ++ b) = (String.length a + String.length b)%nat.
Proof. induction a as [|c a IH]; cbn; [reflexivity | now rewrite IH]. Qed.

Lemma hex_digit_is_hex (n : Z) : Identity.is_hex_char (Md5.hex_digit n) = true.
Proof.
  unfold Md5.hex_digit. generalize (Z.to_nat n) as k. intros k.
  do 16 (destruct k as [|k]; [reflexivity|]). destruct k; reflexivity.
Qed.

Lemma hex_of_bytes_is_hex (bytes : list Z) :
  Identity.all_chars Identity.is_hex_char (Md5.hex_of_bytes bytes) = true.
Proof.
  induction bytes as [|b bytes IH]; cbn [Md5.hex_of_bytes Identity.all_chars];
    [reflexivity|].
  now rewrite !hex_digit_is_hex, IH.
Qed.

Lemma length_hex_of_bytes (bytes : list Z) :
  String.length (Md5.hex_of_bytes bytes) = (2 * List.length bytes)%nat.
Proof.
  induction bytes as [|b bytes IH]; cbn [Md5.hex_of_bytes String.length List.length];
    [reflexivity|].
  rewrite IH. lia.
Qed.

Lemma pcName_chars (hostname : string) :
  Identity.all_chars (fun c => Identity.is_alnum c || (c =? "-")%char)
                     (Identity.pcName hostname) = true.
Proof.
  induction hostname as [|c h IH]; cbn; [reflexivity|].
  fold (Identity.pcName h). rewrite IH, andb_true_r.
  destruct (Identity.is_alnum c) eqn:Hc; [now rewrite Hc | reflexivity].
Qed.

Lemma upper_is_id_char (c : ascii) :
  Identity.is_alnum c || (c =? "-")%char || Identity.is_hex_char c = true ->
  Identity.is_id_char (Identity.upper c) = true.
Proof.
  destruct c as [[] [] [] [] [] [] [] []]; vm_compute; intros H;
    first [reflexivity | discriminate H].
Qed.

(** X15. The identity generated on first run: the machine identifier
    is the host name with every character outside [a-zA-Z0-9] replaced
    by a dash, a dash and the four hex digits of the two random bytes,
    all in capitals; it consists of capitals, digits and dashes only, is
    five characters longer than the host name (so never empty), and the
    secret key is 32 lower-case hex digits. *)
Theorem generated_identity_well_formed (hostname : string)
        (random2 random16 : list byte) :
  List.length random2 = 2%nat ->
  List.length random16 = 16%nat ->
  Identity.all_chars Identity.is_id_char (Identity.newMachineId hostname random2) = true
  /\ String.length (Identity.newMachineId hostname random2)
     = (String.length hostname + 5)%nat
  /\ Identity.all_chars Identity.is_hex_char (Identity.newSecretKey random16) = true
  /\ String.length (Identity.newSecretKey random16) = 32%nat.
Proof.
  intros H2 H16. unfold Identity.newMachineId, Identity.newSecretKey, Identity.hex.
  repeat split.
  - apply (all_chars_map _ (fun c => Identity.is_alnum c || (c =? "-")%char
                                     || Identity.is_hex_char c)).
    + apply upper_is_id_char.
    + rewrite !all_chars_app. apply andb_true_iff. split; [|apply andb_true_iff; split].
      * generalize (pcName_chars hostname).
        generalize (Identity.pcName hostname) as s. intros s.
        induction s as [|c s IH]; cbn; [reflexivity|].
        intros H. apply andb_true_iff in H as [-> Hs]. now rewrite (IH Hs).
      * reflexivity.
      * generalize (hex_of_bytes_is_hex (map (fun b => Z.of_N (Byte.to_N b)) random2)).
        generalize (Md5.hex_of_bytes (map (fun b => Z.of_N (Byte.to_N b)) random2)) as s.
        intros s. induction s as [|c s IH]; cbn; [reflexivity|].
        intros H. apply andb_true_iff in H as [-> Hs].
        now rewrite orb_true_r, (IH Hs).
  - unfold Identity.pcName.
    rewrite length_map_string, !length_append, length_map_string,
      length_hex_of_bytes, length_map, H2. cbn. lia.
  - apply hex_of_bytes_is_hex.
  - now rewrite length_hex_of_bytes, length_map, H16.
Qed.

(** X16. What [getLocalHash] returns is [null] or a string of exactly
    32 lower-case hex digits, and computing it changes nothing. *)
Theorem local_hash_shape (s : store) :
  exists h,
    getLocalHash s = Ret h s
    /\ (h = VNull
        \/ exists d, h = VStr d /\ String.length d = 32%nat
                     /\ Identity.all_chars Identity.is_hex_char d = true).
Proof.
  exists (hash_of_disk (disk s)). split; [apply getLocalHash_returns|].
  unfold hash_of_disk. destruct (logic_js (disk s)) as [bytes|]; [|now left].
  destruct (readable (disk s)); [|now left].
  right. eexists. split; [reflexivity|]. split.
  - apply md5_hex_length.
  - apply hex_of_bytes_is_hex.
Qed.


(** *** Sequences of events *)

Lemma callable_processBatch_ready (m f : value) :
  get m "processBatch" = inl f -> is_callable f = true -> logic_ready m = true.
Proof.
  intros Hf Hcall. unfold logic_ready. rewrite Hf.
  assert (Htf : truthy f = true)
    by (destruct f; try discriminate Hcall; reflexivity).
  rewrite Htf, andb_true_r.
  destruct m; try reflexivity; cbn in Hf; try discriminate Hf;
    injection Hf as <-; discriminate Hcall.
Qed.

(** X19. While the module is not ready every task that arrives is
    dropped and answered by one more [check_version] with the same
    local hash: nothing is queued, nothing is throttled, and the
    process stays as it was. *)
Theorem tasks_while_not_ready (datas : list value) (sys : system) :
  logic_ready (logic (st sys)) = false ->
  let sys' := run evaluate sys (map ExecuteTask datas) in
  outbox (st sys') =
    (outbox (st sys)
     ++ repeat ("check_version", [hash_of_disk (disk (st sys))]) (List.length datas))%list
  /\ pending sys' = pending sys
  /\ invocations sys' = invocations sys
  /\ logic (st sys') = logic (st sys)
  /\ disk (st sys') = disk (st sys).
Proof.
  cbn zeta. revert sys. induction datas as [|data datas IH]; intros sys Hnot.
  - cbn. rewrite app_nil_r. repeat split.
  - cbn [map run fold_left List.length repeat]. cbn [step].
    rewrite (start_ret _ _ _ (on_execute_task_not_ready (st sys) data Hnot)).
    match goal with
    | |- context [fold_left _ _ ?sys1] =>
        destruct (IH sys1 Hnot) as (Ho & Hp & Hi & Hl & Hd)
    end.
    unfold run in *. rewrite Ho, Hp, Hi, Hl, Hd. cbn.
    rewrite <- app_assoc. repeat split.
Qed.

(** X20. Hot swap without restart: right after an update whose text
    evaluates to a module with a callable [processBatch], a batch task
    is accepted and its call goes to the [processBatch] of the new
    module, whatever module (if any) was loaded before. *)
Theorem task_after_update_runs_new_module (sys : system)
        (update_data : value) (content : string) (m f : value)
        (data : value) (rid : string) (payload userid password meters : value) :
  get update_data "content" = inl (VStr content) ->
  writable (disk (st sys)) = true ->
  readable (disk (st sys)) = true ->
  evaluate (utf8_encode content) = Returned m ->
  get m "processBatch" = inl f ->
  is_callable f = true ->
  get data "requestId" = inl (VStr rid) ->
  get data "taskType" = inl (VStr "METER_POST") ->
  get data "payload" = inl payload ->
  get payload "userid" = inl userid ->
  get payload "password" = inl password ->
  get payload "meters" = inl meters ->
  let sys' := run evaluate sys [UpdateLogicFile update_data; ExecuteTask data] in
  invocations sys' =
    (invocations sys
     ++ [(S (next_ticket sys), f,
          [userid; password; meters; VSendProgress (VStr rid)])])%list
  /\ outbox (st sys') = outbox (st sys)
  /\ unhandled sys' = unhandled sys.
Proof.
  intros Hc Hw Hr He Hf Hcall Hrid Htype Hpayload Hu Hp Hm.
  cbn zeta. cbn [run fold_left step].
  destruct (update_setup (st sys) update_data content Hc Hw)
    as (s1 & Hrun & _ & [(m' & _ & He' & Hl & _) | ([Hr' | (e & He')] & _)]);
    try congruence.
  assert (Heq : m' = m) by congruence. rewrite Heq in *. clear Heq He'.
  destruct (update_runs_to_end update_data (st sys)) as (s1' & Hrun' & _ & Ho).
  assert (s1' = s1) by congruence. subst s1'.
  rewrite (start_ret _ _ _ Hrun).
  assert (Hready : logic_ready (logic s1) = true)
    by (rewrite Hl; exact (callable_processBatch_ready m f Hf Hcall)).
  rewrite <- Hl in Hf.
  destruct (batch_task_suspends s1 data rid "METER_POST" payload userid password
              meters f Hready Hrid Htype (or_introl eq_refl) Hpayload Hu Hp Hm Hf Hcall)
    as (k & Hcall' & _).
  match goal with
  | |- context [start ?h ?sys1] =>
      rewrite (start_susp h sys1 _ _ _ _ Hcall')
  end.
  cbn. rewrite Ho. repeat split.
Qed.

End Properties.

(** ** The properties on sample runs *)

Import Sample.

(** *** Version sync (C5, C6, C2, C4) *)

Example md5_hex_empty : Md5.md5_hex [] = "d41d8cd98f00b204e9800998ecf8427e".
Proof. vm_compute. reflexivity. Qed.

Example md5_hex_abc :
  Md5.md5_hex (list_byte_of_string "abc") = "900150983cd24fb0d6963f7d28e17f72".
Proof. vm_compute. reflexivity. Qed.

Example md5_hex_two_blocks :
  Md5.md5_hex (repeat x78 64) = "c1bb4f81d892b2d57947682aeb252456".
Proof. vm_compute. reflexivity. Qed.

Example fresh_process :
  logic (st fresh) = VObj []
  /\ logic_js (disk (st fresh))
     = Some (list_byte_of_string "// Waiting for server update...")
  /\ unhandled fresh = [].
Proof. vm_compute. repeat split. Qed.

Example connect_on_fresh_process :
  outbox (st (step engine fresh Connect)) =
  [("check_version", [VStr "8e1cb5d6d03d35afb9b8c4137513c6da"])].
Proof. vm_compute. reflexivity. Qed.

(** C5 on a process whose [logic.js] holds version 1. *)
Lemma connect_emits_check_version_witness :
  logic_js (disk (st (running "v1"))) = Some (utf8_encode "v1")
  /\ readable (disk (st (running "v1"))) = true
  /\ outbox (st (step engine (running "v1") Connect)) =
     (outbox (st (running "v1"))
      ++ [("check_version", [hash_of_disk (disk (st (running "v1")))])])%list
  /\ hash_of_disk (disk (st (running "v1"))) = VStr (Md5.md5_hex (utf8_encode "v1"))
  /\ readable (disk (st (launch engine (unreadable_disk "v1")))) = false
  /\ hash_of_disk (disk (st (launch engine (unreadable_disk "v1")))) = VNull.
Proof.
  pose proof (connect_emits_check_version engine (running "v1"))
    as (Hout & _ & Hhash & _).
  pose proof (connect_emits_check_version engine (launch engine (unreadable_disk "v1")))
    as (_ & _ & _ & Hnull & _).
  assert (Hf : logic_js (disk (st (running "v1"))) = Some (utf8_encode "v1"))
    by (vm_compute; reflexivity).
  assert (Hr : readable (disk (st (running "v1"))) = true)
    by (vm_compute; reflexivity).
  assert (Hu : readable (disk (st (launch engine (unreadable_disk "v1")))) = false)
    by (vm_compute; reflexivity).
  exact (conj Hf (conj Hr (conj Hout (conj (Hhash _ Hf Hr)
           (conj Hu (Hnull (or_intror Hu))))))).
Defined.

(** C2 on a freshly started process: the placeholder module exports
    nothing. *)
Lemma execute_task_not_ready_witness :
  logic_ready (logic (st fresh)) = false
  /\ outbox (st (step engine fresh
                   (ExecuteTask (task "req-0001" "METER_POST" credentials)))) =
     (outbox (st fresh)
      ++ [("check_version", [hash_of_disk (disk (st fresh))])])%list
  /\ pending (step engine fresh
                (ExecuteTask (task "req-0001" "METER_POST" credentials))) =
     pending fresh.
Proof.
  assert (H : logic_ready (logic (st fresh)) = false) by (vm_compute; reflexivity).
  pose proof (execute_task_not_ready engine fresh
                (task "req-0001" "METER_POST" credentials) H)
    as (Hout & _ & Hpend & _).
  exact (conj H (conj Hout Hpend)).
Defined.

(** C4 on a store whose [logic.js] has become invalid JavaScript while
    version 1 is loaded, and on the placeholder file. *)
Lemma loadLogic_failure_keeps_module_witness :
  (exists s', loadLogic engine (set_disk (disk_with "syntax error (")
                                         (st (running "v1"))) = Ret false s'
              /\ logic s' = full_module 10)
  /\ (exists s', loadLogic engine (st fresh) = Ret false s'
                 /\ logic s' = VObj [] /\ logic_ready (logic s') = false).
Proof.
  split.
  - destruct (proj1 (loadLogic_failure_keeps_module engine
                       (set_disk (disk_with "syntax error (") (st (running "v1")))))
      as (s' & Hrun & Hlogic & _).
    + right. right.
      exists (utf8_encode "syntax error ("), (VErr "SyntaxError" "Unexpected token").
      split; vm_compute; reflexivity.
    + exists s'. split; [exact Hrun|]. rewrite Hlogic. vm_compute. reflexivity.
  - destruct (proj1 (proj2 (loadLogic_failure_keeps_module engine (st fresh)))
                    (utf8_encode "// Waiting for server update...") (VObj []))
      as (s' & Hrun & Hlogic & Hready);
      try (vm_compute; reflexivity).
    exists s'. exact (conj Hrun (conj Hlogic Hready)).
Defined.

(** C6 on a fresh process that receives version 1. *)
Lemma update_logic_file_roundtrip_witness :
  logic_js (disk (st (step engine fresh (UpdateLogicFile (update "v1"))))) =
    Some (utf8_encode "v1")
  /\ outbox (st (step engine (step engine fresh (UpdateLogicFile (update "v1")))
                     Connect)) =
     (outbox (st (step engine fresh (UpdateLogicFile (update "v1"))))
      ++ [("check_version", [VStr (Md5.md5_hex (utf8_encode "v1"))])])%list
  /\ logic (st (step engine (launch engine (read_only_disk "v1"))
                     (UpdateLogicFile (update "v2")))) =
     logic (st (launch engine (read_only_disk "v1")))
  /\ disk (st (step engine (launch engine (read_only_disk "v1"))
                    (UpdateLogicFile (update "v2")))) =
     disk (st (launch engine (read_only_disk "v1"))).
Proof.
  destruct (update_logic_file_roundtrip engine fresh (update "v1") "v1" eq_refl)
    as (Hok & _).
  destruct Hok as (Hfile & Hhash & _); [vm_compute; reflexivity|].
  destruct Hhash as (_ & Hout); [vm_compute; reflexivity|].
  destruct (update_logic_file_roundtrip engine (launch engine (read_only_disk "v1"))
              (update "v2") "v2" eq_refl)
    as (_ & Hko).
  destruct Hko as (_ & Hlogic & _ & Hdisk & _); [vm_compute; reflexivity|].
  exact (conj Hfile (conj Hout (conj Hlogic Hdisk))).
Defined.

Example update_on_read_only_disk :
  let sys := step engine (launch engine (read_only_disk "v1"))
                  (UpdateLogicFile (update "v2")) in
  console (st sys) =
  [LogLogicLoaded; LogDownloading;
   LogUpdateFailed (VStr "EACCES: permission denied, open 'logic.js'")]
  /\ logic (st sys) = full_module 10
  /\ unhandled sys = [].
Proof. vm_compute. repeat split. Qed.

Example update_then_task :
  let sys := run engine fresh
                 [Connect; UpdateLogicFile (update "v1"); Connect;
                  ExecuteTask (task "req-0001" "LOGIN_CHECK" credentials);
                  Settle 4 (Returned login_ok)] in
  outbox (st sys) =
  [("check_version", [VStr "8e1cb5d6d03d35afb9b8c4137513c6da"]);
   ("check_version", [VStr "6654c734ccab8f440ff0825eb443dc7f"]);
   ("task_completed",
    [VObj [("requestId", VStr "req-0001"); ("result", login_ok)]])]
  /\ logic (st sys) = full_module 10.
Proof. vm_compute. split; reflexivity. Qed.

(** *** Conversions to a string *)

Example number_text_samples :
  map number_text
      [0; 50; -7; 2 ^ 53 + 1; 2 ^ 60; 10 ^ 21 - 1; 10 ^ 21;
       123456789012345678901234567890; 2 ^ 1024]
  = ["0"; "50"; "-7"; "9007199254740992"; "1152921504606847000";
     "1e+21"; "1e+21"; "1.2345678901234568e+29"; "Infinity"].
Proof. vm_compute. reflexivity. Qed.

Example to_text_samples :
  to_text HintDefault (VObj [("a", VNum 1)]) = inl "[object Object]"
  /\ to_text HintDefault (VObj [("toString", VNum 1)]) = inr cannot_convert
  /\ to_text HintString (VObj [("toString", VNum 1)]) = inr cannot_convert
  /\ to_text HintString (VObj [("valueOf", VNum 1)]) = inl "[object Object]"
  /\ to_text HintDefault (VObj [("toString", fn 70 "toString")]) = inl "meter M-17"
  /\ to_text HintString (VArr [VNum 1; VNull; VStr "a"; VArr [VBool true; VUndef]])
     = inl "1,,a,true,"
  /\ to_text HintString (VArr [VNum 1; VObj [("toString", VNull)]]) = inr cannot_convert
  /\ to_text HintDefault (VErr "TypeError" "x is not a function")
     = inl "TypeError: x is not a function"
  /\ get (fn 10 "processBatch") "length" = inl (VNum 0).
Proof. vm_compute. repeat split. Qed.

(** *** Task chains (C9, C3, C10) *)

Example inventory_login_failed_run :
  let sys := run engine (running "v1")
                 [ExecuteTask (task "req-0002" "INVENTORY" credentials);
                  Settle 1 (Returned login_failed);
                  Settle 1 (Returned (VArr []))] in
  outbox (st sys) =
  [("task_completed",
    [VObj [("requestId", VStr "req-0002");
           ("result", VObj [("error", VStr "Login Failed: bad password")])]])]
  /\ calls_of 1 sys = [(fn 11 "verifyLoginDetails", [VStr "u1"; VStr "pw"])]
  /\ pending sys = [].
Proof. vm_compute. repeat split. Qed.

(** A login result whose message cannot be converted: the [TypeError]
    of the concatenation is caught like any failure of the task. *)
Example inventory_login_message_unprintable :
  let sys := run engine (running "v1")
                 [ExecuteTask (task "req-0015" "INVENTORY" credentials);
                  Settle 1 (Returned (VObj [("success", VBool false);
                                            ("message", VObj [("toString", VNum 1)])]))] in
  outbox (st sys) =
  [("task_completed",
    [VObj [("requestId", VStr "req-0015");
           ("result",
            failure (VStr "Cannot convert object to primitive value"))]])]
  /\ pending sys = [] /\ unhandled sys = [].
Proof. vm_compute. repeat split. Qed.

(** C9 on version 1 of the module. *)
Lemma single_check_chain_witness :
  let s := st (running "v1") in
  let data := task "req-0001" "SINGLE_CHECK"
                   (VObj [("userid", VStr "u1"); ("password", VStr "pw");
                          ("meterNo", VStr "M-17")]) in
  exists k1,
    on_execute_task data s =
      Susp (fn 11 "verifyLoginDetails") [VStr "u1"; VStr "pw"]
           (add_console (LogProcessingTask (VStr "SINGLE_CHECK") (VStr "req-00")) s)
           k1
    /\ k1 (Returned login_failed) s =
       Ret tt (completed (VStr "req-0001") (VObj [("error", VStr "Login Failed")]) s)
    /\ exists k2,
         k1 (Returned login_ok) s =
           Susp (fn 13 "verifyMeter") [VStr "sid=1"; VStr "M-17"] s k2
         /\ k2 (Returned (VObj [("found", VBool false)])) s =
            Ret tt (completed (VStr "req-0001")
                      (VObj [("status", VStr "not_found")]) s)
         /\ k2 (Returned (VObj [("found", VBool true); ("data", VNum 7)])) s =
            Ret tt (completed (VStr "req-0001")
                      (VObj [("status", VStr "found"); ("data", VNum 7)]) s).
Proof.
  intros s data.
  destruct (single_check_chain s data "req-0001"
              (VObj [("userid", VStr "u1"); ("password", VStr "pw");
                     ("meterNo", VStr "M-17")])
              (VStr "u1") (VStr "pw") (fn 11 "verifyLoginDetails")
              eq_refl eq_refl eq_refl eq_refl eq_refl eq_refl eq_refl eq_refl)
    as (k1 & Hcall & Hfail & Hok).
  exists k1. split; [exact Hcall|].
  split; [exact (Hfail login_failed (VBool false) s eq_refl eq_refl)|].
  destruct (Hok login_ok (VBool true) (VStr "sid=1") (VStr "M-17")
                (fn 13 "verifyMeter") s
                eq_refl eq_refl eq_refl eq_refl eq_refl eq_refl)
    as (k2 & Hmeter & Hnot & Hfound).
  exists k2. split; [exact Hmeter|].
  split;
    [exact (Hnot (VObj [("found", VBool false)]) s eq_refl)
    |exact (Hfound (VObj [("found", VBool true); ("data", VNum 7)]) (VNum 7) s
                   eq_refl eq_refl)].
Defined.

Example single_check_not_found_run :
  let sys := run engine (running "v1")
                 [ExecuteTask (task "req-0001" "SINGLE_CHECK"
                                    (VObj [("userid", VStr "u1");
                                           ("password", VStr "pw");
                                           ("meterNo", VStr "M-17")]));
                  Settle 1 (Returned login_ok);
                  Settle 1 (Returned (VObj [("found", VBool false)]))] in
  outbox (st sys) =
  [("task_completed",
    [VObj [("requestId", VStr "req-0001");
           ("result", VObj [("status", VStr "not_found")])]])]
  /\ calls_of 1 sys =
     [(fn 11 "verifyLoginDetails", [VStr "u1"; VStr "pw"]);
      (fn 13 "verifyMeter", [VStr "sid=1"; VStr "M-17"])].
Proof. vm_compute. split; reflexivity. Qed.



(** C10 on a module that exports [processBatch] alone, and on one that
    exports [processBatch] and [verifyLoginDetails]. *)
Lemma ready_probes_only_processBatch_witness :
  let s := st (running "batch") in
  logic s = batch_only
  /\ logic_ready (logic s) = true
  /\ (exists s',
        on_execute_task (task "req-0004" "LOGIN_CHECK" credentials) s =
        Ret tt (completed (VStr "req-0004")
                  (failure (VStr "logic.verifyLoginDetails is not a function")) s')
        /\ outbox s' = outbox s)
  /\ (exists s',
        on_execute_task (task "req-0005" "INVENTORY" credentials) s =
        Ret tt (completed (VStr "req-0005")
                  (failure (VStr "logic.verifyLoginDetails is not a function")) s')
        /\ outbox s' = outbox s)
  /\ (exists s',
        on_execute_task (task "req-0006" "SINGLE_CHECK" credentials) s =
        Ret tt (completed (VStr "req-0006")
                  (failure (VStr "logic.verifyLoginDetails is not a function")) s')
        /\ outbox s' = outbox s)
  /\ (exists s1 k1,
        on_execute_task (task "req-0011" "INVENTORY" credentials)
                        (st (running "login")) =
        Susp (fn 81 "verifyLoginDetails") [VStr "u1"; VStr "pw"] s1 k1
        /\ exists s3,
            k1 (Returned login_ok) (st (running "login")) =
            Ret tt (completed (VStr "req-0011")
                      (failure (VStr "logic.getInventoryList is not a function")) s3)
            /\ outbox s3 = outbox (st (running "login")))
  /\ (exists s1 k1,
        on_execute_task (task "req-0012" "SINGLE_CHECK" credentials)
                        (st (running "login")) =
        Susp (fn 81 "verifyLoginDetails") [VStr "u1"; VStr "pw"] s1 k1
        /\ exists s3,
            k1 (Returned login_ok) (st (running "login")) =
            Ret tt (completed (VStr "req-0012")
                      (failure (VStr "logic.verifyMeter is not a function")) s3)
            /\ outbox s3 = outbox (st (running "login"))).
Proof.
  intros s.
  split; [vm_compute; reflexivity|].
  split;
    [exact (proj1 (ready_probes_only_processBatch s
                     (task "req-0004" "LOGIN_CHECK" credentials)
                     "req-0004" "LOGIN_CHECK" credentials (fn 90 "processBatch")
                     eq_refl eq_refl eq_refl eq_refl eq_refl eq_refl))|].
  split;
    [exact (proj1 (proj2 (ready_probes_only_processBatch s
                     (task "req-0004" "LOGIN_CHECK" credentials)
                     "req-0004" "LOGIN_CHECK" credentials (fn 90 "processBatch")
                     eq_refl eq_refl eq_refl eq_refl eq_refl eq_refl))
                  VUndef (or_introl eq_refl) eq_refl eq_refl eq_refl)|].
  split;
    [exact (proj1 (proj2 (ready_probes_only_processBatch s
                     (task "req-0005" "INVENTORY" credentials)
                     "req-0005" "INVENTORY" credentials (fn 90 "processBatch")
                     eq_refl eq_refl eq_refl eq_refl eq_refl eq_refl))
                  VUndef (or_intror (or_introl eq_refl)) eq_refl eq_refl eq_refl)|].
  split;
    [exact (proj1 (proj2 (ready_probes_only_processBatch s
                     (task "req-0006" "SINGLE_CHECK" credentials)
                     "req-0006" "SINGLE_CHECK" credentials (fn 90 "processBatch")
                     eq_refl eq_refl eq_refl eq_refl eq_refl eq_refl))
                  VUndef (or_intror (or_intror eq_refl)) eq_refl eq_refl eq_refl)|].
  split.
  - destruct (proj1 (proj2 (proj2 (ready_probes_only_processBatch
                       (st (running "login"))
                       (task "req-0011" "INVENTORY" credentials)
                       "req-0011" "INVENTORY" credentials (fn 80 "processBatch")
                       eq_refl eq_refl eq_refl eq_refl eq_refl eq_refl)))
                    (fn 81 "verifyLoginDetails") (VStr "u1") (VStr "pw")
                    eq_refl eq_refl eq_refl eq_refl eq_refl)
      as (s1 & k1 & Hcall & _ & Hstep).
    exists s1, k1. split; [exact Hcall|].
    exact (Hstep login_ok (VBool true) VUndef (st (running "login"))
                 eq_refl eq_refl eq_refl eq_refl).
  - destruct (proj2 (proj2 (proj2 (ready_probes_only_processBatch
                       (st (running "login"))
                       (task "req-0012" "SINGLE_CHECK" credentials)
                       "req-0012" "SINGLE_CHECK" credentials (fn 80 "processBatch")
                       eq_refl eq_refl eq_refl eq_refl eq_refl eq_refl)))
                    (fn 81 "verifyLoginDetails") (VStr "u1") (VStr "pw")
                    eq_refl eq_refl eq_refl eq_refl eq_refl)
      as (s1 & k1 & Hcall & _ & Hstep).
    exists s1, k1. split; [exact Hcall|].
    exact (Hstep login_ok (VBool true) VUndef (st (running "login"))
                 eq_refl eq_refl eq_refl eq_refl).
Defined.

Example task_on_module_without_login :
  let sys := step engine (running "batch")
                  (ExecuteTask (task "req-0006" "SINGLE_CHECK" credentials)) in
  outbox (st sys) =
  [("task_completed",
    [VObj [("requestId", VStr "req-0006");
           ("result",
            failure (VStr "logic.verifyLoginDetails is not a function"))]])]
  /\ pending sys = [] /\ unhandled sys = [].
Proof. vm_compute. repeat split. Qed.

(** *** The module a task runs against (C7) *)

(** C7 (amended) on version 1 of the module. *)
Lemma task_calls_module_current_at_call_witness :
  calls_current_module
    (on_execute_task (task "req-0007" "INVENTORY" credentials) (st (running "v1")))
    (logic (st (running "v1")))
  /\ calls_at_most_once
       (on_execute_task (task "req-0008" "METER_POST" credentials) (st (running "v1"))).
Proof.
  split.
  - exact (proj1 (task_calls_module_current_at_call
                    (st (running "v1")) (task "req-0007" "INVENTORY" credentials)
                    "req-0007" (VStr "INVENTORY") eq_refl eq_refl)).
  - exact (proj2 (task_calls_module_current_at_call
                    (st (running "v1")) (task "req-0008" "METER_POST" credentials)
                    "req-0008" (VStr "METER_POST") eq_refl eq_refl)
                 (or_introl eq_refl)).
Defined.

Lemma not_member_of_v1 : ~ member_of (full_module 10) (fn 22 "getInventoryList").
Proof.
  intros [name H]. cbn in H.
  repeat match type of H with
         | context [if ?b then _ else _] => destruct b
         end; discriminate H.
Qed.

(** C7, as stated, fails: an [INVENTORY] task dispatched on version 1
    of the module, with an update to version 2 arriving while the login
    is awaited, calls [getInventoryList] of version 2, which is not a
    function of the module the task found at dispatch. *)
Lemma inventory_runs_against_replaced_module :
  let sys := run engine (running "v1")
                 [ExecuteTask (task "req-0007" "INVENTORY" credentials);
                  UpdateLogicFile (update "v2");
                  Settle 1 (Returned login_ok)] in
  logic (st (running "v1")) = full_module 10
  /\ logic (st sys) = full_module 20
  /\ calls_of 1 sys =
     [(fn 11 "verifyLoginDetails", [VStr "u1"; VStr "pw"]);
      (fn 22 "getInventoryList", [VStr "sid=1"; VNum 50])]
  /\ ~ (forall callee args,
           In (callee, args) (calls_of 1 sys) ->
           member_of (logic (st (running "v1"))) callee).
Proof.
  cbn zeta.
  assert (Hcalls :
            calls_of 1 (run engine (running "v1")
                            [ExecuteTask (task "req-0007" "INVENTORY" credentials);
                             UpdateLogicFile (update "v2");
                             Settle 1 (Returned login_ok)]) =
            [(fn 11 "verifyLoginDetails", [VStr "u1"; VStr "pw"]);
             (fn 22 "getInventoryList", [VStr "sid=1"; VNum 50])])
    by (vm_compute; reflexivity).
  assert (Hv1 : logic (st (running "v1")) = full_module 10)
    by (vm_compute; reflexivity).
  split; [exact Hv1|]. split; [vm_compute; reflexivity|].
  split; [exact Hcalls|].
  intros Hall. rewrite Hcalls, Hv1 in Hall.
  apply not_member_of_v1.
  apply (Hall _ [VStr "sid=1"; VNum 50]). right. left. reflexivity.
Qed.

(** *** Exceptions at the dispatch boundary (C1) *)

Example processBatch_throws_run :
  let sys := run engine (running "v1")
                 [ExecuteTask (task "req-0009" "METER_POST" credentials);
                  Settle 1 (Thrown (VErr "Error" "portal unreachable"))] in
  outbox (st sys) =
  [("task_completed",
    [VObj [("requestId", VStr "req-0009");
           ("result", failure (VStr "portal unreachable"))]])]
  /\ pending sys = [] /\ unhandled sys = [].
Proof. vm_compute. repeat split. Qed.

(** C1 on a failing input: [processBatch] rejects without a reason
    (the value thrown is [undefined]).  Reading [e.message] in the
    [catch] block throws in turn; the handler ends with that
    [TypeError] unhandled and no [task_completed] is emitted for the
    task. *)
Theorem rejection_without_reason_escapes :
  let sys0 := running "v1" in
  let sys := run engine sys0
                 [ExecuteTask (task "req-0010" "METER_POST" credentials);
                  Settle 1 (Thrown VUndef)] in
  logic_ready (logic (st sys0)) = true
  /\ calls_of 1 sys =
     [(fn 10 "processBatch",
       [VStr "u1"; VStr "pw"; VUndef; VSendProgress (VStr "req-0010")])]
  /\ pending sys = []
  /\ completions_of "req-0010" (st sys) = []
  /\ outbox (st sys) = []
  /\ unhandled sys =
     [VErr "TypeError" "Cannot read properties of undefined (reading 'message')"].
Proof. vm_compute. repeat split. Qed.

(** The log line before the [try] has the same effect on a message
    without [requestId]. *)
Example task_without_requestId_escapes :
  let sys := step engine (running "v1")
                  (ExecuteTask (VObj [("taskType", VStr "METER_POST");
                                      ("payload", credentials)])) in
  outbox (st sys) = []
  /\ pending sys = []
  /\ unhandled sys =
     [VErr "TypeError" "Cannot read properties of undefined (reading 'substring')"].
Proof. vm_compute. repeat split. Qed.

(** and so has a [taskType] that cannot be printed: an object whose
    own [toString] is not a function. *)
Example task_with_unprintable_type_escapes :
  let sys := step engine (running "v1")
                  (ExecuteTask (VObj [("requestId", VStr "req-0013");
                                      ("taskType", VObj [("toString", VNum 1)]);
                                      ("payload", credentials)])) in
  outbox (st sys) = []
  /\ pending sys = []
  /\ unhandled sys = [VErr "TypeError" "Cannot convert object to primitive value"].
Proof. vm_compute. repeat split. Qed.

(** An exception whose message cannot be printed leaves the [catch]
    block at its log line. *)
Example rejection_with_unprintable_message_escapes :
  let sys := run engine (running "v1")
                 [ExecuteTask (task "req-0014" "METER_POST" credentials);
                  Settle 1 (Thrown (VObj [("message", VObj [("toString", VNull)])]))] in
  outbox (st sys) = []
  /\ pending sys = []
  /\ unhandled sys = [VErr "TypeError" "Cannot convert object to primitive value"].
Proof. vm_compute. repeat split. Qed.

(** *** Heartbeats (C8) *)

(** C8 on a failing input: the channel connects, reconnects, and ten
    seconds pass.  Each connection registered an interval of its own,
    so the period carries two heartbeats. *)
Theorem two_connections_two_heartbeats :
  let sys := run engine (running "v1") [Connect; Connect] in
  intervals (st sys) = [10000; 10000]
  /\ emitted "heartbeat" (st sys) = []
  /\ emitted "heartbeat" (st (step engine sys TenSeconds)) = [[]; []]
  /\ emitted "heartbeat" (st (run engine sys [TenSeconds; TenSeconds])) =
     [[]; []; []; []].
Proof. vm_compute. repeat split. Qed.

Example one_connection_one_heartbeat :
  let sys := run engine (running "v1") [Connect] in
  emitted "heartbeat" (st (step engine sys TenSeconds)) = [[]].
Proof. vm_compute. reflexivity. Qed.

(** *** Further properties on sample runs *)

(** X1 on a task of type [BOGUS], and on one whose type is an object
    with a [toString] that is not a function. *)
Lemma unknown_task_type_answered_witness :
  on_execute_task (task "req-0021" "BOGUS" VUndef) (st (running "v1")) =
  Ret tt (completed (VStr "req-0021") (VObj [("error", VStr "Unknown Task Type")])
            (add_console (LogProcessingTask (VStr "BOGUS") (VStr "req-00"))
               (st (running "v1"))))
  /\ on_execute_task (VObj [("requestId", VStr "req-0021");
                            ("taskType", VObj [("toString", VNum 1)]);
                            ("payload", VUndef)])
                     (st (running "v1")) =
     Exn cannot_convert (st (running "v1")).
Proof.
  split.
  - refine (proj1 (unknown_task_type_answered (st (running "v1"))
              (task "req-0021" "BOGUS" VUndef) "req-0021" (VStr "BOGUS") VUndef
              eq_refl eq_refl eq_refl eq_refl _ _ _ _ _) "BOGUS" eq_refl);
      discriminate.
  - refine (proj2 (unknown_task_type_answered (st (running "v1"))
              (VObj [("requestId", VStr "req-0021");
                     ("taskType", VObj [("toString", VNum 1)]);
                     ("payload", VUndef)])
              "req-0021" (VObj [("toString", VNum 1)]) VUndef
              eq_refl eq_refl eq_refl eq_refl _ _ _ _ _) cannot_convert eq_refl);
      discriminate.
Defined.

(** X2 on a [FAST_POST] task without [meters]. *)
Lemma batch_result_passed_through_witness :
  exists k,
    on_execute_task (task "req-0022" "FAST_POST" credentials) (st (running "v1")) =
      Susp (fn 10 "processBatch")
           [VStr "u1"; VStr "pw"; VUndef; VSendProgress (VStr "req-0022")]
           (add_console (LogProcessingTask (VStr "FAST_POST") (VStr "req-00"))
              (st (running "v1"))) k
    /\ k (Returned (VObj [("posted", VNum 3)])) (st (running "v1")) =
       Ret tt (completed (VStr "req-0022") (VObj [("posted", VNum 3)])
                 (st (running "v1"))).
Proof.
  destruct (batch_result_passed_through (st (running "v1"))
              (task "req-0022" "FAST_POST" credentials) "req-0022" "FAST_POST"
              credentials (VStr "u1") (VStr "pw") VUndef (fn 10 "processBatch")
              eq_refl eq_refl eq_refl (or_intror eq_refl)
              eq_refl eq_refl eq_refl eq_refl eq_refl eq_refl)
    as (k & Hcall & Hret).
  exists k. exact (conj Hcall (Hret _ _)).
Defined.

(** X3 on a module that exports a number as [processBatch]. *)
Lemma batch_on_uncallable_processBatch_witness :
  let s := set_logic odd_module (st (running "v1")) in
  logic_ready (logic s) = true
  /\ on_execute_task (task "req-0023" "METER_POST" credentials) s =
     Ret tt (completed (VStr "req-0023")
               (failure (VStr "logic.processBatch is not a function"))
               (add_console (LogError (VStr "logic.processBatch is not a function"))
                  (add_console (LogProcessingTask (VStr "METER_POST") (VStr "req-00")) s))).
Proof.
  exact (batch_on_uncallable_processBatch
           (set_logic odd_module (st (running "v1")))
           (task "req-0023" "METER_POST" credentials) "req-0023" "METER_POST"
           credentials (VNum 1)
           eq_refl eq_refl eq_refl eq_refl eq_refl eq_refl (or_introl eq_refl)
           eq_refl eq_refl).
Defined.

(** X4 on a login that fails. *)
Lemma login_check_passed_through_witness :
  exists k,
    on_execute_task (task "req-0024" "LOGIN_CHECK" credentials) (st (running "v1")) =
      Susp (fn 11 "verifyLoginDetails") [VStr "u1"; VStr "pw"]
           (add_console (LogProcessingTask (VStr "LOGIN_CHECK") (VStr "req-00"))
              (st (running "v1"))) k
    /\ k (Returned login_failed) (st (running "v1")) =
       Ret tt (completed (VStr "req-0024") login_failed (st (running "v1"))).
Proof.
  destruct (login_check_passed_through (st (running "v1"))
              (task "req-0024" "LOGIN_CHECK" credentials) "req-0024"
              credentials (VStr "u1") (VStr "pw") (fn 11 "verifyLoginDetails")
              eq_refl eq_refl eq_refl eq_refl eq_refl eq_refl eq_refl eq_refl)
    as (k & Hcall & Hret & _).
  exists k. exact (conj Hcall (Hret _ _)).
Defined.

(** X5 on an [INVENTORY] task whose message has no payload. *)
Lemma task_without_payload_fails_cleanly_witness :
  let data := VObj [("requestId", VStr "req-0025"); ("taskType", VStr "INVENTORY")] in
  exists s',
    on_execute_task data (st (running "v1")) =
    Ret tt (completed (VStr "req-0025")
              (failure (VStr "Cannot read properties of undefined (reading 'userid')"))
              s')
    /\ outbox s' = outbox (st (running "v1")).
Proof.
  exact (task_without_payload_fails_cleanly (st (running "v1"))
           (VObj [("requestId", VStr "req-0025"); ("taskType", VStr "INVENTORY")])
           "req-0025" (VStr "INVENTORY") VUndef
           eq_refl eq_refl eq_refl eq_refl eq_refl
           (or_intror (or_intror (or_intror (or_introl eq_refl))))).
Defined.

(** X6 on a progress report of a running batch, on a call without
    argument and on a report whose [status] cannot be printed. *)
Lemma progress_is_forwarded_witness :
  let sys := step engine (running "v1")
                  (ExecuteTask (task "req-0026" "METER_POST" credentials)) in
  let progress := VObj [("current", VNum 2); ("total", VNum 9);
                        ("status", VStr "posted")] in
  let odd := VObj [("current", VNum 2); ("total", VNum 9);
                   ("status", VObj [("toString", VNull)])] in
  outbox (st (step engine sys (Callback (VSendProgress (VStr "req-0026")) progress))) =
    (outbox (st sys)
     ++ [("task_progress",
          [VObj [("requestId", VStr "req-0026"); ("progress", progress)]])])%list
  /\ st (step engine sys (Callback (VSendProgress (VStr "req-0026")) VUndef)) = st sys
  /\ st (step engine sys (Callback (VSendProgress (VStr "req-0026")) odd)) = st sys
  /\ pending (step engine sys (Callback (VSendProgress (VStr "req-0026")) progress)) =
     pending sys.
Proof.
  intros sys progress odd.
  pose proof (progress_is_forwarded engine sys (VStr "req-0026") progress)
    as (Hout & _ & _ & Hpend & _).
  pose proof (progress_is_forwarded engine sys (VStr "req-0026") VUndef)
    as (_ & Hnull & _).
  pose proof (progress_is_forwarded engine sys (VStr "req-0026") odd)
    as (_ & _ & Hodd & _).
  assert (H2 : to_text HintString (VNum 2) = inl "2") by (vm_compute; reflexivity).
  assert (H9 : to_text HintString (VNum 9) = inl "9") by (vm_compute; reflexivity).
  assert (Ho : to_text HintString (VObj [("toString", VNull)]) = inr cannot_convert)
    by (vm_compute; reflexivity).
  exact (conj (Hout (VNum 2) (VNum 9) (VStr "posted") "2" "9" "posted"
                    eq_refl H2 eq_refl H9 eq_refl eq_refl)
           (conj (Hnull eq_refl)
              (conj (Hodd "status" (VObj [("toString", VNull)]) cannot_convert
                          (or_intror (or_intror (or_introl eq_refl))) eq_refl Ho)
                 Hpend))).
Defined.

(** X7 on a process that runs version 1 while the file holds version
    2. *)
Lemma loadLogic_reloads_from_disk_witness :
  let s := set_disk (disk_with "v2") (st (running "v1")) in
  require_cache s = Some (full_module 10)
  /\ (exists s', loadLogic engine s = Ret true s'
                 /\ logic s' = full_module 20
                 /\ require_cache s' = Some (full_module 20))
  /\ require_logic engine s = Ret (full_module 10) s.
Proof.
  intros s.
  destruct (loadLogic_reloads_from_disk engine s (utf8_encode "v2") (full_module 20)
              eq_refl eq_refl eq_refl)
    as ((s' & Hrun & Hlogic & Hcache & _) & Hstale).
  split; [reflexivity|]. split.
  - exists s'. exact (conj Hrun (conj Hlogic Hcache)).
  - exact (Hstale (full_module 10) eq_refl).
Defined.

(** X8 on the three kinds of disk. *)
Lemma startup_keeps_or_creates_logic_file_witness :
  disk (st (launch engine (disk_with "v1"))) = disk_with "v1"
  /\ logic_js (disk (st (launch engine empty_disk))) =
     Some (utf8_encode "// Waiting for server update...")
  /\ unhandled (launch engine {| logic_js := None; readable := true; writable := false |})
     = [fs_error "EACCES" "permission denied"].
Proof.
  split; [|split].
  - exact (proj1 (proj1 (startup_keeps_or_creates_logic_file engine (disk_with "v1"))
                        (utf8_encode "v1") eq_refl)).
  - exact (proj1 (proj1 (proj2 (startup_keeps_or_creates_logic_file engine empty_disk))
                        eq_refl eq_refl)).
  - exact (proj2 (proj2 (proj1 (proj2 (proj2 (startup_keeps_or_creates_logic_file engine
             {| logic_js := None; readable := true; writable := false |})))
             eq_refl eq_refl))).
Defined.

(** X9 on a run with two connections, a task that fails and a
    progress report. *)
Lemma setup_changes_only_on_update_witness :
  let evs := [Connect;
              ExecuteTask (task "req-0027" "INVENTORY" credentials);
              TenSeconds; Connect;
              Settle 2 (Thrown (VErr "Error" "timeout"));
              Callback (VSendProgress (VStr "req-0027")) (VObj []);
              LogicUptodate] in
  logic (st (run engine (running "v1") evs)) = logic (st (running "v1"))
  /\ disk (st (run engine (running "v1") evs)) = disk (st (running "v1")).
Proof.
  intros evs.
  destruct (setup_changes_only_on_update engine (disk_with "v1") evs eq_refl)
    as (Hd & _ & Hl).
  exact (conj Hl Hd).
Defined.

Example heartbeats_after_interleaved_connections :
  let sys := run engine (running "v1")
                 [Connect; ExecuteTask (task "req-0028" "METER_POST" credentials);
                  UpdateLogicFile (update "v2"); Connect; TenSeconds; Connect] in
  emitted "heartbeat" (st sys) = [[]; []]
  /\ emitted "heartbeat" (st (step engine sys TenSeconds)) = [[]; []; []; []; []].
Proof. vm_compute. split; reflexivity. Qed.

(** X11 on a fresh process that receives version 1. *)
Lemma update_installs_new_module_witness :
  logic (st (step engine fresh (UpdateLogicFile (update "v1")))) = full_module 10
  /\ console (st (step engine fresh (UpdateLogicFile (update "v1")))) =
     (console (st fresh) ++ [LogDownloading; LogFileSaved]
      ++ (if logic_ready (full_module 10) then [LogLogicLoaded] else [])
      ++ [LogReadyForTasks])%list.
Proof.
  destruct (update_installs_new_module engine fresh (update "v1") "v1" (full_module 10)
              eq_refl eq_refl eq_refl eq_refl)
    as (Hl & _ & Hc & _).
  exact (conj Hl Hc).
Defined.

(** X12 on a process that runs version 1 and receives a text that is
    not JavaScript. *)
Lemma update_that_does_not_evaluate_witness :
  let sys' := step engine (running "v1") (UpdateLogicFile (update "function (")) in
  logic (st sys') = logic (st (running "v1"))
  /\ hash_of_disk (disk (st sys')) = VStr (Md5.md5_hex (utf8_encode "function ("))
  /\ unhandled sys' = unhandled (running "v1").
Proof.
  intros sys'.
  destruct (update_that_does_not_evaluate engine (running "v1") (update "function (")
              "function (" (VErr "SyntaxError" "Unexpected token")
              eq_refl eq_refl eq_refl eq_refl)
    as (Hl & _ & Hh & _ & Hu).
  exact (conj Hl (conj Hh Hu)).
Defined.

Example stale_module_after_bad_update :
  let sys := run engine (running "v1")
                 [UpdateLogicFile (update "function ("); Connect;
                  ExecuteTask (task "req-0029" "LOGIN_CHECK" credentials)] in
  logic (st sys) = full_module 10
  /\ emitted "check_version" (st sys) = [[VStr "5f26eb47963e2bbb8c43371a30883b72"]]
  /\ calls_of 3 sys = [(fn 11 "verifyLoginDetails", [VStr "u1"; VStr "pw"])].
Proof. vm_compute. repeat split. Qed.


(** X14 on an [update_logic_file] event without data. *)
Lemma update_without_text_changes_nothing_witness :
  console (st (step engine (running "v1") (UpdateLogicFile VUndef))) =
    (console (st (running "v1"))
     ++ [LogDownloading;
         LogUpdateFailed
           (VStr "Cannot read properties of undefined (reading 'content')")])%list
  /\ disk (st (step engine (running "v1") (UpdateLogicFile VUndef))) =
     disk (st (running "v1"))
  /\ logic (st (step engine (running "v1") (UpdateLogicFile VUndef))) =
     logic (st (running "v1"))
  /\ unhandled (step engine (running "v1") (UpdateLogicFile VUndef)) =
     unhandled (running "v1").
Proof.
  destruct (update_without_text_changes_nothing engine (running "v1") VUndef eq_refl)
    as (Hc & Hd & _ & Hl & _ & _ & Hu).
  exact (conj Hc (conj Hd (conj Hl Hu))).
Defined.

Example identity_of_a_host :
  Identity.newMachineId "my-pc.local" [xab; x07] = "MY-PC-LOCAL-AB07"
  /\ Identity.newSecretKey (repeat x5f 16) = "5f5f5f5f5f5f5f5f5f5f5f5f5f5f5f5f".
Proof. vm_compute. split; reflexivity. Qed.

(** X15 on a host name with a dot and a space. *)
Lemma generated_identity_well_formed_witness :
  Identity.all_chars Identity.is_id_char
                     (Identity.newMachineId "lab pc.3" [x00; xff]) = true
  /\ String.length (Identity.newMachineId "lab pc.3" [x00; xff]) = 13%nat
  /\ String.length (Identity.newSecretKey (repeat x5f 16)) = 32%nat.
Proof.
  destruct (generated_identity_well_formed "lab pc.3" [x00; xff] (repeat x5f 16)
              eq_refl eq_refl)
    as (Hc & Hl & _ & Hk).
  exact (conj Hc (conj Hl Hk)).
Defined.

(** The methods of the sample environment never throw. *)
Lemma sample_methods_throw_reportable : methods_throw_reportable.
Proof.
  intros f this e H. unfold call_method, sample_methods in H.
  destruct f; try discriminate H.
  destruct (id =? 70)%nat; discriminate H.
Defined.

(** X17 and X18 on an [INVENTORY] task. *)
Lemma execute_task_completes_once_witness :
  completes_once (VStr "req-0030")
    (on_execute_task (task "req-0030" "INVENTORY" credentials) (st (running "v1")))
    (st (running "v1")).
Proof.
  exact (execute_task_completes_once (st (running "v1"))
           (task "req-0030" "INVENTORY" credentials) "req-0030"
           (VStr "INVENTORY") "INVENTORY"
           sample_methods_throw_reportable eq_refl eq_refl eq_refl eq_refl).
Defined.

Lemma execute_task_catches_witness :
  catches (VStr "req-0030")
    (on_execute_task (task "req-0030" "INVENTORY" credentials) (st (running "v1"))).
Proof.
  exact (execute_task_catches (st (running "v1"))
           (task "req-0030" "INVENTORY" credentials) "req-0030"
           (VStr "INVENTORY") "INVENTORY" eq_refl eq_refl eq_refl eq_refl).
Defined.

Example second_step_exception_is_caught :
  let sys := run engine (running "v1")
                 [ExecuteTask (task "req-0031" "SINGLE_CHECK" credentials);
                  Settle 1 (Returned login_ok);
                  Settle 1 (Thrown (VErr "Error" "meter portal down"))] in
  outbox (st sys) =
  [("task_completed",
    [VObj [("requestId", VStr "req-0031");
           ("result", failure (VStr "meter portal down"))]])]
  /\ unhandled sys = [].
Proof. vm_compute. split; reflexivity. Qed.

(** X19 on three tasks sent to a freshly started process. *)
Lemma tasks_while_not_ready_witness :
  let datas := [task "req-0032" "METER_POST" credentials; VUndef;
                task "req-0033" "BOGUS" VNull] in
  outbox (st (run engine fresh (map ExecuteTask datas))) =
    (outbox (st fresh)
     ++ repeat ("check_version", [hash_of_disk (disk (st fresh))]) 3)%list
  /\ pending (run engine fresh (map ExecuteTask datas)) = pending fresh.
Proof.
  intros datas.
  destruct (tasks_while_not_ready engine datas fresh eq_refl) as (Ho & Hp & _).
  exact (conj Ho Hp).
Defined.

(** X20 on a fresh process that receives version 1 and then a batch. *)
Lemma task_after_update_runs_new_module_witness :
  let payload := VObj [("userid", VStr "u1"); ("password", VStr "pw");
                       ("meters", VArr [VStr "M-1"])] in
  invocations (run engine fresh
                   [UpdateLogicFile (update "v1");
                    ExecuteTask (task "req-0034" "METER_POST" payload)]) =
  (invocations fresh
   ++ [(S (next_ticket fresh), fn 10 "processBatch",
        [VStr "u1"; VStr "pw"; VArr [VStr "M-1"];
         VSendProgress (VStr "req-0034")])])%list.
Proof.
  intros payload.
  exact (proj1 (task_after_update_runs_new_module engine fresh
                  (update "v1") "v1" (full_module 10) (fn 10 "processBatch")
                  (task "req-0034" "METER_POST" payload) "req-0034" payload
                  (VStr "u1") (VStr "pw") (VArr [VStr "M-1"])
                  eq_refl eq_refl eq_refl eq_refl eq_refl eq_refl
                  eq_refl eq_refl eq_refl eq_refl eq_refl eq_refl)).
Defined.
